(** * News digest pipeline: chunker, ingestion and orchestrator

  A shallow embedding of [text_processing.py], [news_agent_plugin.py],
  [control_agent.py] and [config.py].

  Python [int] is [Z]; [str] is [string] (a sequence of 8-bit code
  points); [float] is the kernel's binary64 [float]; a [dict] used as a
  keyed store is a [gmap]; a JSON object whose iteration order matters is
  an association list.  A [while] loop is a fuel-indexed [Fixpoint]:
  [None] means the fuel ran out, and a loop diverges when it runs out of
  every amount of fuel. *)

From Stdlib Require Import ZArith String Ascii List Lia Bool DecimalString.
From Stdlib Require Import Floats.PrimFloat.
From stdpp Require Import base option gmap strings.

Import ListNotations.
Local Open Scope Z_scope.

(* ===================================================================== *)
(** ** Python strings *)
(* ===================================================================== *)

Module PyStr.

(** [len(s)] *)
Definition len (s : string) : Z := Z.of_nat (String.length s).

(** The first [n] characters of [s] (all of [s] when it is shorter). *)
Fixpoint take (n : nat) (s : string) : string :=
  match n, s with
  | O, _ => EmptyString
  | S _, EmptyString => EmptyString
  | S n', String c s' => String c (take n' s')
  end.

(** [s] without its first [n] characters. *)
Fixpoint drop (n : nat) (s : string) : string :=
  match n, s with
  | O, _ => s
  | S _, EmptyString => EmptyString
  | S n', String _ s' => drop n' s'
  end.

(** How a slice bound is normalised (CPython's [PySlice_AdjustIndices]
    for step 1): a negative bound counts from the end, and every bound
    is clipped to [0, len]. *)
Definition adjust_index (length i : Z) : Z :=
  if i <? 0 then Z.max (i + length) 0 else Z.min i length.

(** [s[start:stop]] *)
Definition slice (s : string) (start stop : Z) : string :=
  let a := adjust_index (len s) start in
  let b := adjust_index (len s) stop in
  take (Z.to_nat (b - a)) (drop (Z.to_nat a) s).

(** [s[:stop]] *)
Definition slice_to (s : string) (stop : Z) : string := slice s 0 stop.

(** [''.join(parts)] *)
Definition join (parts : list string) : string :=
  fold_right String.append EmptyString parts.

(** [c.isspace()] on the code points below 256: TAB..CR, FS..US, space,
    NEL and NBSP. *)
Definition isspace (c : ascii) : bool :=
  let n := nat_of_ascii c in
  ((9 <=? n)%nat && (n <=? 13)%nat) || ((28 <=? n)%nat && (n <=? 32)%nat)
  || (n =? 133)%nat || (n =? 160)%nat.

(** [not s.strip()]: nothing is left once the white space is stripped. *)
Fixpoint is_blank (s : string) : bool :=
  match s with
  | EmptyString => true
  | String c s' => isspace c && is_blank s'
  end.

(** Truth value of a string: [bool(s)]. *)
Definition truthy (s : string) : bool :=
  match s with EmptyString => false | String _ _ => true end.

End PyStr.

(* ===================================================================== *)
(** ** text_processing.py *)
(* ===================================================================== *)

Module TextProcessing.

(** One test of the [while] condition of [chunk_text] together with the
    body it guards.  The loop state is the cursor [start] and the list
    [chunks] built so far; [inr] is the state after one iteration and
    [inl] the list returned when the condition is false. *)
Definition chunk_step (text : string) (chunk_size overlap : Z)
           (start : Z) (chunks : list string)
  : list string + (Z * list string) :=
  let text_length := PyStr.len text in
  if start <? text_length then
    let end_ := start + chunk_size in
    let end_ := if end_ >? text_length then text_length else end_ in
    let chunk := PyStr.slice text start end_ in
    inr (end_ - overlap, chunks ++ [chunk])
  else inl chunks.

(** The [while] loop, run for at most [fuel] tests of its condition. *)
Fixpoint chunk_loop (fuel : nat) (text : string) (chunk_size overlap : Z)
         (start : Z) (chunks : list string) : option (list string) :=
  match fuel with
  | O => None
  | S fuel' =>
      match chunk_step text chunk_size overlap start chunks with
      | inl result => Some result
      | inr (start', chunks') =>
          chunk_loop fuel' text chunk_size overlap start' chunks'
      end
  end.

(** [chunk_text(text, chunk_size, overlap)].  The function has no
    [raise]: it returns a list or it does not return. *)
Definition chunk_text (fuel : nat) (text : string) (chunk_size overlap : Z)
  : option (list string) :=
  chunk_loop fuel text chunk_size overlap 0 [].

(** [chunk_text] does not return: no amount of fuel is enough. *)
Definition chunk_text_diverges (text : string) (chunk_size overlap : Z)
  : Prop :=
  forall fuel, chunk_text fuel text chunk_size overlap = None.

End TextProcessing.


(* ===================================================================== *)
(** ** Exceptions, JSON values and the effect monad *)
(* ===================================================================== *)

(** A raised exception; only [str(e)] is ever observed by the program. *)
Inductive exn : Type := Exception (msg : string).

Definition str_of_exn (e : exn) : string :=
  match e with Exception msg => msg end.

(** What a call that may raise produces. *)
Inductive outcome (A : Type) : Type :=
| Ok (a : A)
| Raise (e : exn).
Arguments Ok {A} a.
Arguments Raise {A} e.

#[local] Set Warnings "-register-all".

(** The values [json.loads] can return.  A JSON object keeps its keys in
    insertion order, which is the order [.items()] iterates in. *)
Inductive json : Type :=
| JNull
| JBool (b : bool)
| JInt (z : Z)
| JFloat (f : float)
| JStr (s : string)
| JList (items : list json)
| JDict (items : list (string * json)).

Fixpoint assoc (key : string) (items : list (string * json)) : option json :=
  match items with
  | [] => None
  | (k, v) :: rest => if String.eqb k key then Some v else assoc key rest
  end.

(** [type(v).__name__] *)
Definition type_name (v : json) : string :=
  match v with
  | JNull => "NoneType"
  | JBool _ => "bool"
  | JInt _ => "int"
  | JFloat _ => "float"
  | JStr _ => "str"
  | JList _ => "list"
  | JDict _ => "dict"
  end.

(** [v[key]] for the string keys the program uses (plain words):
    [KeyError] on a dict without the key, whose text is the key in
    quotes, and [TypeError] on every value that is not a dict, with the
    text CPython 3.11 gives for the type of [v]. *)
Definition getitem (v : json) (key : string) : outcome json :=
  match v with
  | JDict items =>
      match assoc key items with
      | Some x => Ok x
      | None => Raise (Exception ("'" +:+ key +:+ "'"))
      end
  | JList _ =>
      Raise (Exception "list indices must be integers or slices, not str")
  | JStr _ => Raise (Exception "string indices must be integers, not 'str'")
  | _ =>
      Raise (Exception ("'" +:+ type_name v
                            +:+ "' object is not subscriptable"))
  end.

(** [v.items()]: only a dict has the method; the text of the
    [AttributeError] names the type of [v]. *)
Definition items_of (v : json) : outcome (list (string * json)) :=
  match v with
  | JDict items => Ok items
  | _ =>
      Raise (Exception ("'" +:+ type_name v
                            +:+ "' object has no attribute 'items'"))
  end.

(** [l[0]] on a list. *)
Definition first_item {A : Type} (l : list A) : outcome A :=
  match l with
  | x :: _ => Ok x
  | [] => Raise (Exception "list index out of range")
  end.

(** An embedding vector. *)
Definition Embedding : Type := list float.

(** config.py: the settings the pipeline reads. *)
Record Config : Type := {
  CHUNK_SIZE : Z;
  CHUNK_OVERLAP : Z;
  MAX_ARTICLES_PER_SEARCH : Z
}.

(** The values config.py assigns. *)
Definition config_py : Config :=
  {| CHUNK_SIZE := 1000; CHUNK_OVERLAP := 200; MAX_ARTICLES_PER_SEARCH := 10 |}.

(** One entry of [results["organic_results"]]; a field is [None] when the
    key is absent, which [.get(key, "")] turns into the empty string. *)
Record SearchHit : Type := {
  hit_link : option string;
  hit_title : option string;
  hit_snippet : option string
}.

(** The dict [fetch_industry_news] appends per search result. *)
Record Article : Type := {
  art_url : string;
  art_title : string;
  art_snippet : string;
  art_keywords : json;
  art_focus_point : string
}.

(** The dict [process_articles] appends per chunk: one row of the frame. *)
Record Row : Type := {
  row_link : string;
  row_title : string;
  row_snippet : string;
  row_keywords : json;
  row_session_id : string;
  row_category : string;
  row_chunked_text : string;
  row_chunk_id : string;
  row_article_id : string;
  row_embedding : Embedding
}.

(** The metadata dict [store_in_vector_db] writes. *)
Record Metadata : Type := {
  meta_link : string;
  meta_title : string;
  meta_snippet : string;
  meta_keywords : json;
  meta_session_id : string;
  meta_category : string;
  meta_article_id : string
}.

(** One [collection.add] call: id, embedding, metadata and document. *)
Record Entry : Type := {
  entry_id : string;
  entry_embedding : Embedding;
  entry_metadata : Metadata;
  entry_document : string
}.

(** What [collection.query] returns: one inner list per query embedding. *)
Record QueryResult : Type := {
  qr_documents : list (list string);
  qr_metadatas : list (list Metadata);
  qr_distances : list (list float)
}.

(** One element of the list [retrieve_from_vector_db] returns. *)
Record Retrieved : Type := {
  ret_text : string;
  ret_metadata : Metadata;
  ret_distance : float
}.

(** The value stored in [session_history] under a session id. *)
Record SessionRecord : Type := {
  sr_timestamp : string;
  sr_company : string;
  sr_industry : json;
  sr_focus_points : list string
}.

(** The collaborators outside the repository.  Each is a function of its
    arguments; a call that fails is a [Raise].
    - [run_async company focus_points]: building the prompt, registering
      the semantic function and running it; the value is
      [response.result] ([None] when the completion has no text).
    - [json_loads]: [json.loads].
    - [serp_search industry keyword_list]: formatting the query,
      [GoogleSearch(params).get_dict()]; the value is
      [results["organic_results"]], [None] when the key is absent.
    - [http_get_text url]: [requests.get], [raise_for_status], the
      BeautifulSoup parse and [get_text()].
    - [re_clean]: the two [re.sub] passes and the [strip] of [clean_text].
    - [generate_embeddings_async], [generate_embeddings]: the embedding
      service, through [get_ai_service].
    - [collection_add entries e]: the collection after [collection.add].
    - [collection_query entries query_embeddings n_results].
    - [uuid4 n]: the [n]-th identifier drawn; [now_isoformat t] and
      [now_strftime t]: the clock at its [t]-th reading. *)
Record Services : Type := {
  run_async : string -> list string -> outcome (option string);
  json_loads : string -> outcome json;
  serp_search : json -> json -> outcome (option (list SearchHit));
  http_get_text : string -> outcome string;
  re_clean : string -> string;
  generate_embeddings_async : string -> outcome Embedding;
  generate_embeddings : string -> outcome Embedding;
  collection_add : list Entry -> Entry -> outcome (list Entry);
  collection_query : list Entry -> list Embedding -> Z -> outcome QueryResult;
  uuid4 : nat -> string;
  now_isoformat : nat -> string;
  now_strftime : nat -> string
}.

(** The mutable state of one process: the identifiers drawn so far, the
    clock readings so far, the ChromaDB collection of the plugin and the
    [session_history] dict of the control agent. *)
Record State : Type := {
  uuid_count : nat;
  clock : nat;
  collection : list Entry;
  session_history : gmap string SessionRecord
}.

(** A computation over the state that returns, raises, or ([None]) is
    still inside a [while] loop when the fuel is gone. *)
Definition M (A : Type) : Type := State -> option (outcome A * State).

#[global] Instance M_ret : MRet M :=
  fun A (a : A) (s : State) => Some (Ok a, s).

#[global] Instance M_bind : MBind M :=
  fun A B (k : A -> M B) (m : M A) (s : State) =>
    match m s with
    | None => None
    | Some (Ok a, s') => k a s'
    | Some (Raise e, s') => Some (Raise e, s')
    end.

(** A call that touches no state. *)
Definition lift {A : Type} (o : outcome A) : M A :=
  fun s => Some (o, s).

(** A call that returns when the fuel suffices. *)
Definition lift_fuel {A : Type} (o : option A) : M A :=
  fun s => match o with Some a => Some (Ok a, s) | None => None end.

(** [generate_unique_id()]: draw the next identifier. *)
Definition generate_unique_id (svc : Services) : M string :=
  fun s =>
    Some (Ok (uuid4 svc (uuid_count s)),
          {| uuid_count := S (uuid_count s); clock := clock s;
             collection := collection s;
             session_history := session_history s |}).

(** [datetime.now()] formatted with [fmt]: one reading of the clock. *)
Definition now (fmt : nat -> string) (s : State) : string * State :=
  (fmt (clock s),
   {| uuid_count := uuid_count s; clock := S (clock s);
      collection := collection s;
      session_history := session_history s |}).

Definition read_clock (fmt : nat -> string) : M string :=
  fun s => let '(reading, s') := now fmt s in Some (Ok reading, s').

(** [scrape_article(url)]: every exception of the [try] body is caught
    and the empty string returned. *)
Definition scrape_article (svc : Services) (url : string) : string :=
  match http_get_text svc url with
  | Ok text => re_clean svc text
  | Raise _ => EmptyString
  end.

(* ===================================================================== *)
(** ** news_agent_plugin.py *)
(* ===================================================================== *)

Module NewsAgentPlugin.

(** The dict returned when the completion cannot be used. *)
Definition default_keywords : json :=
  JDict [("industry"%string, JNull); ("keywords"%string, JDict [])].

(** The [try] block of [extract_search_keywords] with its handler: an
    empty or blank result raises [ValueError], [json.loads] may raise,
    and the handler answers both with [default_keywords]. *)
Definition parse_llm_output (svc : Services) (result : option string) : json :=
  match result with
  | None => default_keywords
  | Some text =>
      if negb (PyStr.truthy text) || PyStr.is_blank text then default_keywords
      else match json_loads svc text with
           | Ok v => v
           | Raise _ => default_keywords
           end
  end.

(** [extract_search_keywords(company_name, focus_points)]: the call of
    the completion service is outside the [try]. *)
Definition extract_search_keywords (svc : Services)
           (company_name : string) (focus_points : list string)
  : outcome json :=
  match run_async svc company_name focus_points with
  | Ok result => Ok (parse_llm_output svc result)
  | Raise e => Raise e
  end.

Definition or_empty (o : option string) : string :=
  match o with Some s => s | None => EmptyString end.

(** The dict appended for one search result. *)
Definition article_of_hit (focus_point : string) (keyword_list : json)
           (hit : SearchHit) : Article :=
  {| art_url := or_empty (hit_link hit);
     art_title := or_empty (hit_title hit);
     art_snippet := or_empty (hit_snippet hit);
     art_keywords := keyword_list;
     art_focus_point := focus_point |}.

(** The loop of [fetch_industry_news] over [keywords.items()]. *)
Fixpoint fetch_loop (svc : Services) (industry : json)
         (items : list (string * json)) (articles : list Article)
  : outcome (list Article) :=
  match items with
  | [] => Ok articles
  | (focus_point, keyword_list) :: rest =>
      match serp_search svc industry keyword_list with
      | Raise e => Raise e
      | Ok None => fetch_loop svc industry rest articles
      | Ok (Some hits) =>
          fetch_loop svc industry rest
            (articles ++ map (article_of_hit focus_point keyword_list) hits)
      end
  end.

(** [fetch_industry_news(industry, keywords)] *)
Definition fetch_industry_news (svc : Services) (industry keywords : json)
  : outcome (list Article) :=
  match items_of keywords with
  | Raise e => Raise e
  | Ok items => fetch_loop svc industry items []
  end.

(** The row appended for one chunk. *)
Definition row_of_chunk (article : Article)
           (session_id article_id chunk_id chunk : string)
           (embedding : Embedding) : Row :=
  {| row_link := art_url article;
     row_title := art_title article;
     row_snippet := art_snippet article;
     row_keywords := art_keywords article;
     row_session_id := session_id;
     row_category := art_focus_point article;
     row_chunked_text := chunk;
     row_chunk_id := chunk_id;
     row_article_id := article_id;
     row_embedding := embedding |}.

(** The inner loop of [process_articles] over the chunks of one article.
    The embedding call is not inside any [try]. *)
Fixpoint process_chunks (svc : Services) (article : Article)
         (session_id article_id : string) (chunks : list string)
         (processed_data : list Row) : M (list Row) :=
  match chunks with
  | [] => mret processed_data
  | chunk :: rest =>
      chunk_id ← generate_unique_id svc;
      embedding ← lift (generate_embeddings_async svc chunk);
      process_chunks svc article session_id article_id rest
        (processed_data
           ++ [row_of_chunk article session_id article_id chunk_id chunk
                            embedding])
  end.

(** The outer loop of [process_articles]. *)
Fixpoint process_loop (fuel : nat) (cfg : Config) (svc : Services)
         (articles : list Article) (session_id : string)
         (processed_data : list Row) : M (list Row) :=
  match articles with
  | [] => mret processed_data
  | article :: rest =>
      let content := scrape_article svc (art_url article) in
      if negb (PyStr.truthy content) then
        process_loop fuel cfg svc rest session_id processed_data
      else
        chunks ← lift_fuel (TextProcessing.chunk_text fuel content
                              (CHUNK_SIZE cfg) (CHUNK_OVERLAP cfg));
        article_id ← generate_unique_id svc;
        processed_data' ← process_chunks svc article session_id article_id
                            chunks processed_data;
        process_loop fuel cfg svc rest session_id processed_data'
  end.

(** [process_articles(articles, session_id)]; the frame is the list of
    its rows. *)
Definition process_articles (fuel : nat) (cfg : Config) (svc : Services)
           (articles : list Article) (session_id : string) : M (list Row) :=
  process_loop fuel cfg svc articles session_id [].

(** The arguments of [collection.add] for one row. *)
Definition entry_of_row (row : Row) : Entry :=
  {| entry_id := row_chunk_id row;
     entry_embedding := row_embedding row;
     entry_metadata :=
       {| meta_link := row_link row;
          meta_title := row_title row;
          meta_snippet := row_snippet row;
          meta_keywords := row_keywords row;
          meta_session_id := row_session_id row;
          meta_category := row_category row;
          meta_article_id := row_article_id row |};
     entry_document := row_chunked_text row |}.

(** One [collection.add]. *)
Definition add_entry (svc : Services) (e : Entry) : M unit :=
  fun s =>
    match collection_add svc (collection s) e with
    | Ok entries =>
        Some (Ok tt,
              {| uuid_count := uuid_count s; clock := clock s;
                 collection := entries;
                 session_history := session_history s |})
    | Raise err => Some (Raise err, s)
    end.

(** [store_in_vector_db(df)] *)
Fixpoint store_in_vector_db (svc : Services) (df : list Row) : M unit :=
  match df with
  | [] => mret tt
  | row :: rest =>
      _ ← add_entry svc (entry_of_row row);
      store_in_vector_db svc rest
  end.

(** [zip(documents, metadatas, distances)] into result dicts. *)
Fixpoint zip_results (docs : list string) (metas : list Metadata)
         (dists : list float) : list Retrieved :=
  match docs, metas, dists with
  | doc :: docs', meta :: metas', dist :: dists' =>
      {| ret_text := doc; ret_metadata := meta; ret_distance := dist |}
        :: zip_results docs' metas' dists'
  | _, _, _ => []
  end.

(** [retrieve_from_vector_db(query, n_results)] on the collection
    [entries]. *)
Definition retrieve_from_vector_db (svc : Services) (entries : list Entry)
           (query : string) (n_results : Z) : outcome (list Retrieved) :=
  match generate_embeddings svc query with
  | Raise e => Raise e
  | Ok query_embedding =>
      match collection_query svc entries [query_embedding] n_results with
      | Raise e => Raise e
      | Ok results =>
          match first_item (qr_documents results) with
          | Raise e => Raise e
          | Ok docs =>
              match first_item (qr_metadatas results) with
              | Raise e => Raise e
              | Ok metas =>
                  match first_item (qr_distances results) with
                  | Raise e => Raise e
                  | Ok dists => Ok (zip_results docs metas dists)
                  end
              end
          end
      end
  end.

End NewsAgentPlugin.

(* ===================================================================== *)
(** ** control_agent.py *)
(* ===================================================================== *)

Module ControlAgent.

Import NewsAgentPlugin.

(** One element of a focus point's ["articles"] list. *)
Record ArticleSummary : Type := {
  as_title : string;
  as_url : string;
  as_snippet : string;
  as_relevance_score : float;
  as_text_snippet : string
}.

(** One element of ["news_summary"]. *)
Record FocusPointSummary : Type := {
  fps_focus_point : string;
  fps_articles : list ArticleSummary
}.

(** The dict [composed_results]. *)
Record ComposedResults : Type := {
  cr_company : string;
  cr_industry : json;
  cr_focus_points : list string;
  cr_session_id : string;
  cr_timestamp : string;
  cr_news_summary : list FocusPointSummary
}.

(** What [compose_industry_news] returns: [composed_results], or the
    dict [error_response] with its three keys. *)
Inductive Response : Type :=
| Composed (composed_results : ComposedResults)
| ErrorResponse (error session_id timestamp : string).

(** The dict built for one retrieval result. *)
Definition article_summary (result : Retrieved) : ArticleSummary :=
  {| as_title := meta_title (ret_metadata result);
     as_url := meta_link (ret_metadata result);
     as_snippet := meta_snippet (ret_metadata result);
     as_relevance_score := PrimFloat.sub 1%float (ret_distance result);
     as_text_snippet := PyStr.slice_to (ret_text result) 200 +:+ "..." |}.

(** The query string of one focus point. *)
Definition query_of (company_name focus_point time_period : string) : string :=
  company_name +:+ " " +:+ focus_point +:+ " " +:+ time_period.

(** The loop over [focus_points]: one retrieval and one appended block
    per focus point, in list order. *)
Fixpoint summary_loop (svc : Services) (company_name time_period : string)
         (max_results : Z) (focus_points : list string)
         (news_summary : list FocusPointSummary)
  : M (list FocusPointSummary) :=
  match focus_points with
  | [] => mret news_summary
  | focus_point :: rest =>
      results ← (fun s =>
                   lift (retrieve_from_vector_db svc (collection s)
                           (query_of company_name focus_point time_period)
                           max_results) s);
      summary_loop svc company_name time_period max_results rest
        (news_summary
           ++ [{| fps_focus_point := focus_point;
                  fps_articles := map article_summary results |}])
  end.

(** [self.session_history[session_id] = record] *)
Definition store_session (session_id : string) (record : SessionRecord)
  : M unit :=
  fun s =>
    Some (Ok tt,
          {| uuid_count := uuid_count s; clock := clock s;
             collection := collection s;
             session_history := <[session_id := record]> (session_history s) |}).

(** The [try] body of [compose_industry_news]. *)
Definition compose_body (fuel : nat) (cfg : Config) (svc : Services)
           (company_name : string) (focus_points : list string)
           (session_id : string) (max_results : Z) (time_period : string)
  : M ComposedResults :=
  keywords_result ← lift (extract_search_keywords svc company_name
                            focus_points);
  industry ← lift (getitem keywords_result "industry");
  keywords ← lift (getitem keywords_result "keywords");
  articles ← lift (fetch_industry_news svc industry keywords);
  processed_df ← process_articles fuel cfg svc articles session_id;
  _ ← store_in_vector_db svc processed_df;
  industry1 ← lift (getitem keywords_result "industry");
  timestamp ← read_clock (now_isoformat svc);
  news_summary ← summary_loop svc company_name time_period max_results
                   focus_points [];
  timestamp2 ← read_clock (now_isoformat svc);
  industry2 ← lift (getitem keywords_result "industry");
  _ ← store_session session_id
        {| sr_timestamp := timestamp2; sr_company := company_name;
           sr_industry := industry2; sr_focus_points := focus_points |};
  mret {| cr_company := company_name; cr_industry := industry1;
          cr_focus_points := focus_points; cr_session_id := session_id;
          cr_timestamp := timestamp; cr_news_summary := news_summary |}.

(** The session id in use: the caller's, or one derived from the clock. *)
Definition resolve_session_id (svc : Services) (session_id : option string)
           (s : State) : string * State :=
  match session_id with
  | Some sid => (sid, s)
  | None =>
      let '(reading, s') := now (now_strftime svc) s in
      ("session_" +:+ reading, s')
  end.

(** [compose_industry_news(company_name, focus_points, session_id,
    max_results, time_period)]: the [try] body, and the handler that
    turns every exception into [error_response].  The call itself never
    raises. *)
Definition compose_industry_news (fuel : nat) (cfg : Config) (svc : Services)
           (company_name : string) (focus_points : list string)
           (session_id : option string) (max_results : Z)
           (time_period : string) (s : State) : option (Response * State) :=
  let '(sid, s0) := resolve_session_id svc session_id s in
  match compose_body fuel cfg svc company_name focus_points sid
                     max_results time_period s0 with
  | None => None
  | Some (Ok composed_results, s1) => Some (Composed composed_results, s1)
  | Some (Raise e, s1) =>
      let '(timestamp, s2) := now (now_isoformat svc) s1 in
      Some (ErrorResponse (str_of_exn e) sid timestamp, s2)
  end.

(** [get_session_history(session_id)] *)
Definition get_session_history (session_id : string) (s : State)
  : option SessionRecord :=
  session_history s !! session_id.

End ControlAgent.

(* ===================================================================== *)
(** ** text_processing.py: [clean_text] *)
(* ===================================================================== *)

Module TextCleaning.

(** [\w] on the code points below 256: ASCII letters, digits and the
    underscore, and the letters and numbers of the upper half (ª ² ³ µ ¹ º
    ¼ ½ ¾, À..Ö, Ø..ö, ø..ÿ). *)
Definition is_word (c : ascii) : bool :=
  let n := nat_of_ascii c in
  ((48 <=? n)%nat && (n <=? 57)%nat)
  || ((65 <=? n)%nat && (n <=? 90)%nat)
  || (n =? 95)%nat
  || ((97 <=? n)%nat && (n <=? 122)%nat)
  || (n =? 170)%nat || (n =? 178)%nat || (n =? 179)%nat || (n =? 181)%nat
  || (n =? 185)%nat || (n =? 186)%nat
  || ((188 <=? n)%nat && (n <=? 190)%nat)
  || ((192 <=? n)%nat && (n <=? 214)%nat)
  || ((216 <=? n)%nat && (n <=? 246)%nat)
  || ((248 <=? n)%nat && (n <=? 255)%nat).

(** The punctuation the second pattern lets through: [.,!?-]. *)
Definition is_punctuation (c : ascii) : bool :=
  let n := nat_of_ascii c in
  (n =? 46)%nat || (n =? 44)%nat || (n =? 33)%nat || (n =? 63)%nat
  || (n =? 45)%nat.

(** A character outside the class [[^\w\s.,!?-]]: it stays. *)
Definition is_kept (c : ascii) : bool :=
  is_word c || PyStr.isspace c || is_punctuation c.

(** [re.sub(r'\s+', ' ', text)]: every maximal run of white space
    becomes one space.  [in_run] tells that the character before was
    white space. *)
Fixpoint sub_spaces (in_run : bool) (text : string) : string :=
  match text with
  | EmptyString => EmptyString
  | String c rest =>
      if PyStr.isspace c then
        if in_run then sub_spaces true rest
        else String " "%char (sub_spaces true rest)
      else String c (sub_spaces false rest)
  end.

(** [re.sub(r'[^\w\s.,!?-]', '', text)]: the characters of the class
    are removed. *)
Fixpoint remove_special (text : string) : string :=
  match text with
  | EmptyString => EmptyString
  | String c rest =>
      if is_kept c then String c (remove_special rest)
      else remove_special rest
  end.

(** [text.lstrip()] *)
Fixpoint lstrip (text : string) : string :=
  match text with
  | EmptyString => EmptyString
  | String c rest => if PyStr.isspace c then lstrip rest else text
  end.

(** [text.rstrip()] *)
Fixpoint rstrip (text : string) : string :=
  match text with
  | EmptyString => EmptyString
  | String c rest =>
      match rstrip rest with
      | EmptyString => if PyStr.isspace c then EmptyString
                       else String c EmptyString
      | stripped => String c stripped
      end
  end.

(** [text.strip()] *)
Definition strip (text : string) : string := rstrip (lstrip text).

(** [clean_text(text)] *)
Definition clean_text (text : string) : string :=
  let text := sub_spaces false text in
  let text := remove_special text in
  strip text.

End TextCleaning.

(* ===================================================================== *)
(** ** main.py: [check_environment] *)
(* ===================================================================== *)

Module Main.

(** [not value] for what [os.getenv] returns: unset or empty. *)
Definition unset (value : option string) : bool :=
  match value with
  | None => true
  | Some text => negb (PyStr.truthy text)
  end.

(** The dict [required_vars], in insertion order. *)
Definition required_vars (env : gmap string string)
  : list (string * option string) :=
  [("GOOGLE_API_KEY"%string, env !! "GOOGLE_API_KEY"%string);
   ("SERPAPI_API_KEY"%string, env !! "SERPAPI_API_KEY"%string)].

(** The list [missing_vars]. *)
Definition missing_vars (env : gmap string string) : list string :=
  map fst (List.filter (fun item => unset (snd item)) (required_vars env)).

(** [check_environment()], on the environment as [load_dotenv] leaves
    it; the printed lines are not modelled. *)
Definition check_environment (env : gmap string string) : bool :=
  match missing_vars env with
  | [] => true
  | _ :: _ => false
  end.

End Main.

(* ===================================================================== *)
(** ** Concrete collaborators and runs *)
(* ===================================================================== *)

Module Scenarios.

Import NewsAgentPlugin ControlAgent.

#[local] Set Warnings "-inexact-float".

Definition unit_embedding : Embedding := [1%float].

(** An entry left in the collection by an earlier session. *)
Definition earlier_entry : Entry :=
  {| entry_id := "chunk-0";
     entry_embedding := unit_embedding;
     entry_metadata :=
       {| meta_link := "http://news.example/old";
          meta_title := "Earlier title";
          meta_snippet := "earlier snippet";
          meta_keywords := JList [JStr "ev"];
          meta_session_id := "session_0";
          meta_category := "A";
          meta_article_id := "article-0" |};
     entry_document := "earlier text" |}.

(** A collection that answers a query with every entry it holds, each at
    distance 0.3. *)
Definition query_all (entries : list Entry) (query_embeddings : list Embedding)
           (n_results : Z) : outcome QueryResult :=
  Ok {| qr_documents := [map entry_document entries];
        qr_metadatas := [map entry_metadata entries];
        qr_distances := [map (fun _ => 0.3%float) entries] |}.

(** Collaborators that differ in the completion, the parser, the search,
    the page fetch and the chunk embedding. *)
Definition services (completion : outcome (option string))
           (loads : string -> outcome json)
           (search : json -> json -> outcome (option (list SearchHit)))
           (get : string -> outcome string)
           (embed : string -> outcome Embedding) : Services :=
  {| run_async := fun _ _ => completion;
     json_loads := loads;
     serp_search := search;
     http_get_text := get;
     re_clean := fun text => text;
     generate_embeddings_async := embed;
     generate_embeddings := fun _ => Ok unit_embedding;
     collection_add := fun entries e => Ok (entries ++ [e]);
     collection_query := query_all;
     uuid4 := fun n => "id-" +:+ NilZero.string_of_uint (Nat.to_uint n);
     now_isoformat := fun t => "T" +:+ NilZero.string_of_uint (Nat.to_uint t);
     now_strftime := fun t => NilZero.string_of_uint (Nat.to_uint t) |}.

Definition initial_state : State :=
  {| uuid_count := 0; clock := 0; collection := [earlier_entry];
     session_history := ∅ |}.

Definition no_parse (text : string) : outcome json :=
  Raise (Exception "Expecting value: line 1 column 1 (char 0)").

Definition no_search (industry keyword_list : json)
  : outcome (option (list SearchHit)) := Ok None.

Definition no_page (url : string) : outcome string :=
  Raise (Exception "404 Client Error").

Definition embed_ok (chunk : string) : outcome Embedding := Ok unit_embedding.

(** The completion service answers with an empty string. *)
Definition svc_empty_completion : Services :=
  services (Ok (Some EmptyString)) no_parse no_search no_page embed_ok.

(** The completion service answers with text that is not JSON. *)
Definition svc_bad_completion : Services :=
  services (Ok (Some "Sorry, I cannot help."%string)) no_parse no_search
           no_page embed_ok.

(** A well-formed keyword result for one focus point. *)
Definition keywords_json : json :=
  JDict [("industry"%string, JStr "automotive");
         ("keywords"%string, JDict [("A"%string, JList [JStr "ev"])])].

Definition parse_keywords (text : string) : outcome json := Ok keywords_json.

Definition hit (url : string) : SearchHit :=
  {| hit_link := Some url; hit_title := Some "title"%string;
     hit_snippet := None |}.

(** The search finds three pages. *)
Definition three_hits (industry keyword_list : json)
  : outcome (option (list SearchHit)) :=
  Ok (Some [hit "u1"; hit "u2"; hit "u3"]).

(** Page [u2] cannot be fetched; the two others have text. *)
Definition pages (url : string) : outcome string :=
  if String.eqb url "u1" then Ok "abcdef"%string
  else if String.eqb url "u3" then Ok "xyz"%string
  else Raise (Exception "404 Client Error").

(** The embedding of the chunk ["def"] fails; every other one succeeds. *)
Definition embed_but_def (chunk : string) : outcome Embedding :=
  if String.eqb chunk "def" then Raise (Exception "quota exceeded")
  else Ok unit_embedding.

(** Settings under which the chunker returns: windows of three
    characters, no overlap. *)
Definition config_no_overlap : Config :=
  {| CHUNK_SIZE := 3; CHUNK_OVERLAP := 0; MAX_ARTICLES_PER_SEARCH := 10 |}.

Definition svc_all_ok : Services :=
  services (Ok (Some "{...}"%string)) parse_keywords three_hits pages embed_ok.

Definition svc_embed_fails : Services :=
  services (Ok (Some "{...}"%string)) parse_keywords three_hits pages
           embed_but_def.

(** Every page fetch fails. *)
Definition svc_no_pages : Services :=
  services (Ok (Some "{...}"%string)) parse_keywords three_hits no_page
           embed_ok.

Definition search_down (industry keyword_list : json)
  : outcome (option (list SearchHit)) :=
  Raise (Exception "Connection refused").

(** The search service cannot be reached. *)
Definition svc_search_down : Services :=
  services (Ok (Some "{...}"%string)) parse_keywords search_down pages
           embed_ok.

(** The batch [three_hits] leads to. *)
Definition three_articles : list Article :=
  map (article_of_hit "A" (JList [JStr "ev"])) [hit "u1"; hit "u2"; hit "u3"].

End Scenarios.

(* ===================================================================== *)
(** ** Properties the theorems are stated with *)
(* ===================================================================== *)

Module Properties.

Import NewsAgentPlugin ControlAgent TextProcessing.

#[local] Set Warnings "-inexact-float".

(** [P] holds of every element of the list but the last one. *)
Fixpoint all_but_last {A : Type} (P : A -> Prop) (l : list A) : Prop :=
  match l with
  | [] => True
  | x :: rest =>
      match rest with
      | [] => True
      | _ :: _ => P x /\ all_but_last P rest
      end
  end.

(** A computation that leaves [session_history] as it found it, however
    it ends. *)
Definition keeps_history {A : Type} (m : M A) : Prop :=
  forall s r s', m s = Some (r, s') -> session_history s' = session_history s.

(** A computation that leaves [session_history] as it found it whenever it
    raises. *)
Definition keeps_history_on_raise {A : Type} (m : M A) : Prop :=
  forall s e s',
    m s = Some (Raise e, s') -> session_history s' = session_history s.

(** The article is passed over: its text is empty. *)
Definition skipped (svc : Services) (article : Article) : Prop :=
  scrape_article svc (art_url article) = EmptyString.

(** The embedding call of the chunk came back with a vector. *)
Definition embedded (svc : Services) (chunk : string) : Prop :=
  exists v, generate_embeddings_async svc chunk = Ok v.

(** An article that is not passed over was cut into chunks and every
    chunk was embedded. *)
Definition ingested (fuel : nat) (cfg : Config) (svc : Services)
           (article : Article) : Prop :=
  skipped svc article
  \/ exists chunks,
      chunk_text fuel (scrape_article svc (art_url article))
                 (CHUNK_SIZE cfg) (CHUNK_OVERLAP cfg) = Some chunks
      /\ Forall (embedded svc) chunks.


(** The completion has no text, only white space, or text that
    [json.loads] rejects. *)
Definition unusable_completion (svc : Services) (result : option string)
  : Prop :=
  match result with
  | None => True
  | Some text =>
      PyStr.is_blank text = true \/ exists e, json_loads svc text = Raise e
  end.

(** [block] is the summary of focus point [focus_point]: its articles
    are the results of that focus point's retrieval on [entries], one
    summary per result and in the order of the results. *)
Definition block_of (svc : Services) (entries : list Entry)
           (company_name time_period : string) (max_results : Z)
           (focus_point : string) (block : FocusPointSummary) : Prop :=
  fps_focus_point block = focus_point
  /\ exists results,
      retrieve_from_vector_db svc entries
        (query_of company_name focus_point time_period) max_results
      = Ok results
      /\ fps_articles block = map article_summary results.

(** The retrieval of the focus point raises [e]. *)
Definition retrieval_fails (svc : Services) (entries : list Entry)
           (company_name time_period : string) (max_results : Z)
           (e : exn) (focus_point : string) : Prop :=
  retrieve_from_vector_db svc entries
    (query_of company_name focus_point time_period) max_results = Raise e.

(** The summary reports, as relevance score, one minus the distance of
    the result; for the distance 0.3 that is 0.7. *)
Definition scored (result : Retrieved) (summary : ArticleSummary) : Prop :=
  as_relevance_score summary = PrimFloat.sub 1%float (ret_distance result)
  /\ (ret_distance result = 0.3%float ->
      as_relevance_score summary = 0.7%float).

(** [block] is the summary of focus point [focus_point], and its
    articles are scored, one by one and in order, from the results of
    that focus point's retrieval on [entries]. *)
Definition scored_block (svc : Services) (entries : list Entry)
           (company_name time_period : string) (max_results : Z)
           (focus_point : string) (block : FocusPointSummary) : Prop :=
  fps_focus_point block = focus_point
  /\ exists results,
      retrieve_from_vector_db svc entries
        (query_of company_name focus_point time_period) max_results
      = Ok results
      /\ Forall2 scored results (fps_articles block).

(** The response is the error envelope of session [session_id]. *)
Definition is_error_envelope (session_id : string) (response : Response)
  : Prop :=
  exists error timestamp, response = ErrorResponse error session_id timestamp.

End Properties.

(* ===================================================================== *)
(** ** Further properties: what the statements are made of *)
(* ===================================================================== *)

Module Shapes.

Import NewsAgentPlugin ControlAgent TextProcessing Properties.

(** The distance between the starts of two consecutive windows. *)
Definition stride (chunk_size overlap : Z) : Z := chunk_size - overlap.

(** How many windows start below [len]: [len / stride], rounded up. *)
Definition window_count (len chunk_size overlap : Z) : Z :=
  (len + stride chunk_size overlap - 1) / stride chunk_size overlap.

(** Windows still to come when the cursor is at [start]. *)
Definition remaining (len start chunk_size overlap : Z) : nat :=
  Z.to_nat (window_count (Z.max 0 (len - start)) chunk_size overlap).

(** The [k]-th window of the text, counted from 0:
    [text[k*stride : k*stride + chunk_size]]. *)
Definition window (text : string) (chunk_size overlap : Z) (k : nat) : string :=
  PyStr.slice text (Z.of_nat k * stride chunk_size overlap)
              (Z.of_nat k * stride chunk_size overlap + chunk_size).

(** The windows of the text, in order. *)
Definition windows (text : string) (chunk_size overlap : Z) : list string :=
  map (window text chunk_size overlap)
      (seq 0 (Z.to_nat (window_count (PyStr.len text) chunk_size overlap))).

(** The characters of a string, in order. *)
Definition chars (s : string) : list ascii := list_ascii_of_string s.

Definition first_char (s : string) : option ascii :=
  match s with
  | EmptyString => None
  | String c _ => Some c
  end.

Fixpoint last_char (s : string) : option ascii :=
  match s with
  | EmptyString => None
  | String c rest =>
      match rest with
      | EmptyString => Some c
      | String _ _ => last_char rest
      end
  end.

(** A character [clean_text] lets through as it is: a word character or
    one of [.,!?-]. *)
Definition is_content (c : ascii) : bool :=
  TextCleaning.is_word c || TextCleaning.is_punctuation c.

(** The vector the embedding service gives for a chunk (the empty vector
    where the call raises). *)
Definition embedding_of (svc : Services) (chunk : string) : Embedding :=
  match generate_embeddings_async svc chunk with
  | Ok v => v
  | Raise _ => []
  end.

(** The chunks of an article: none when it has no text. *)
Definition article_chunks (fuel : nat) (cfg : Config) (svc : Services)
           (article : Article) : list string :=
  match chunk_text fuel (scrape_article svc (art_url article))
                   (CHUNK_SIZE cfg) (CHUNK_OVERLAP cfg) with
  | Some chunks =>
      if PyStr.truthy (scrape_article svc (art_url article)) then chunks
      else []
  | None => []
  end.

(** The rows of the chunks of one article, the first chunk taking the
    [n]-th identifier, the next one the one after, and so on. *)
Fixpoint chunk_rows (svc : Services) (article : Article)
         (session_id article_id : string) (n : nat) (chunks : list string)
  : list Row :=
  match chunks with
  | [] => []
  | chunk :: rest =>
      row_of_chunk article session_id article_id (uuid4 svc n) chunk
                   (embedding_of svc chunk)
        :: chunk_rows svc article session_id article_id (S n) rest
  end.

(** The rows of a batch when [n] identifiers have been drawn before: an
    article with text takes one identifier for itself and one per
    chunk; an article without text takes none. *)
Fixpoint batch_rows (fuel : nat) (cfg : Config) (svc : Services)
         (session_id : string) (n : nat) (articles : list Article)
  : list Row :=
  match articles with
  | [] => []
  | article :: rest =>
      if PyStr.truthy (scrape_article svc (art_url article)) then
        chunk_rows svc article session_id (uuid4 svc n) (S n)
                   (article_chunks fuel cfg svc article)
          ++ batch_rows fuel cfg svc session_id
               (S n + length (article_chunks fuel cfg svc article)) rest
      else batch_rows fuel cfg svc session_id n rest
  end.

(** The identifiers a batch draws. *)
Fixpoint batch_draws (fuel : nat) (cfg : Config) (svc : Services)
         (articles : list Article) : nat :=
  match articles with
  | [] => O
  | article :: rest =>
      if PyStr.truthy (scrape_article svc (art_url article)) then
        S (length (article_chunks fuel cfg svc article))
        + batch_draws fuel cfg svc rest
      else batch_draws fuel cfg svc rest
  end.

(** The state differs from [s] by [k] more identifiers drawn, and by
    nothing else. *)
Definition drew (k : nat) (s s' : State) : Prop :=
  uuid_count s' = (uuid_count s + k)%nat
  /\ clock s' = clock s
  /\ collection s' = collection s
  /\ session_history s' = session_history s.

(** A computation whose only effect on the state is to draw
    identifiers. *)
Definition only_draws {A : Type} (m : M A) : Prop :=
  forall s r s', m s = Some (r, s') -> exists k, drew k s s'.

(** [collection.add] appends the entry and never raises. *)
Definition append_only (svc : Services) : Prop :=
  forall (entries : list Entry) (e : Entry),
    collection_add svc entries e = Ok (entries ++ [e]).

(** The search for the keyword list raises. *)
Definition search_fails (svc : Services) (industry : json)
           (item : string * json) : Prop :=
  exists e, serp_search svc industry (snd item) = Raise e.

(** The length of the longest text among the articles of a batch. *)
Definition longest_text (svc : Services) (articles : list Article) : nat :=
  fold_right (fun article longest =>
                Nat.max (String.length (scrape_article svc (art_url article)))
                        longest)
             O articles.

(** The session id a response carries. *)
Definition response_session_id (response : Response) : string :=
  match response with
  | Composed r => cr_session_id r
  | ErrorResponse _ session_id _ => session_id
  end.



(** The preview of the summary is the first 200 characters of the
    result's text followed by three dots. *)
Definition previewed (result : Retrieved) (summary : ArticleSummary) : Prop :=
  as_text_snippet summary = PyStr.take 200 (ret_text result) +:+ "..."
  /\ 3 <= PyStr.len (as_text_snippet summary) <= 203.

(** [block] is the summary of focus point [focus_point], and its
    articles carry, one by one and in order, the previews of the results
    of that focus point's retrieval on [entries]. *)
Definition previewed_block (svc : Services) (entries : list Entry)
           (company_name time_period : string) (max_results : Z)
           (focus_point : string) (block : FocusPointSummary) : Prop :=
  fps_focus_point block = focus_point
  /\ exists results,
      retrieve_from_vector_db svc entries
        (query_of company_name focus_point time_period) max_results
      = Ok results
      /\ Forall2 previewed results (fps_articles block).

(** The identifier source never gives the same identifier twice. *)
Definition never_repeats (svc : Services) : Prop :=
  forall i j : nat, uuid4 svc i = uuid4 svc j -> i = j.

(** The row carries the [i]-th identifier as article id and the [j]-th
    as chunk id, with [lo <= i < j < hi]. *)
Definition ids_within (svc : Services) (lo hi : nat) (row : Row) : Prop :=
  exists i j : nat,
    (lo <= i)%nat /\ (i < j)%nat /\ (j < hi)%nat
    /\ row_article_id row = uuid4 svc i
    /\ row_chunk_id row = uuid4 svc j.

(** What a row copies from its article. *)
Definition row_source (row : Row) : string * string * string * json * string :=
  (row_link row, row_title row, row_snippet row, row_keywords row,
   row_category row).

Definition article_source (article : Article)
  : string * string * string * json * string :=
  (art_url article, art_title article, art_snippet article,
   art_keywords article, art_focus_point article).

End Shapes.

(* ===================================================================== *)
(** ** Further collaborators and runs *)
(* ===================================================================== *)

Module MoreScenarios.

Import NewsAgentPlugin ControlAgent Scenarios.

(** [n] strokes: an identifier source that never repeats itself. *)
Fixpoint tally (n : nat) : string :=
  match n with
  | O => EmptyString
  | S k => String "i"%char (tally k)
  end.

(** The collaborators [svc], with another identifier source and another
    cleaner. *)
Definition with_ids_and_cleaner (ids : nat -> string)
           (cleaner : string -> string) (svc : Services) : Services :=
  {| run_async := run_async svc;
     json_loads := json_loads svc;
     serp_search := serp_search svc;
     http_get_text := http_get_text svc;
     re_clean := cleaner;
     generate_embeddings_async := generate_embeddings_async svc;
     generate_embeddings := generate_embeddings svc;
     collection_add := collection_add svc;
     collection_query := collection_query svc;
     uuid4 := ids;
     now_isoformat := now_isoformat svc;
     now_strftime := now_strftime svc |}.

(** [svc_all_ok] with tallies as identifiers and [clean_text] as
    cleaner. *)
Definition svc_tally : Services :=
  with_ids_and_cleaner tally TextCleaning.clean_text svc_all_ok.

(** A page of symbols and white space only. *)
Definition symbols_page (url : string) : outcome string :=
  Ok " @@ ## $$ "%string.

Definition svc_symbols : Services :=
  with_ids_and_cleaner tally TextCleaning.clean_text
    (services (Ok (Some "{...}"%string)) parse_keywords three_hits
              symbols_page embed_ok).



(** The completion parses as a JSON list. *)
Definition parse_list (text : string) : outcome json := Ok (JList []).

Definition svc_list_completion : Services :=
  services (Ok (Some "[]"%string)) parse_list three_hits pages embed_ok.

(** A collection that refuses the chunk ["def"]. *)
Definition add_but_def (entries : list Entry) (e : Entry)
  : outcome (list Entry) :=
  if String.eqb (entry_document e) "def" then
    Raise (Exception "invalid entry")
  else Ok (entries ++ [e]).

Definition svc_add_fails : Services :=
  {| run_async := run_async svc_all_ok;
     json_loads := json_loads svc_all_ok;
     serp_search := serp_search svc_all_ok;
     http_get_text := http_get_text svc_all_ok;
     re_clean := re_clean svc_all_ok;
     generate_embeddings_async := generate_embeddings_async svc_all_ok;
     generate_embeddings := generate_embeddings svc_all_ok;
     collection_add := add_but_def;
     collection_query := collection_query svc_all_ok;
     uuid4 := uuid4 svc_all_ok;
     now_isoformat := now_isoformat svc_all_ok;
     now_strftime := now_strftime svc_all_ok |}.

(** Two rows, of the chunks ["abc"] and ["def"]. *)
Definition row_abc : Row :=
  row_of_chunk (article_of_hit "A" (JList [JStr "ev"]) (hit "u1"))
               "s1" "article-1" "chunk-1" "abc" unit_embedding.

Definition row_def : Row :=
  row_of_chunk (article_of_hit "A" (JList [JStr "ev"]) (hit "u1"))
               "s1" "article-1" "chunk-2" "def" unit_embedding.

End MoreScenarios.


(* ===================================================================== *)
(** ** Strings: facts about [take], [drop] and [slice] *)
(* ===================================================================== *)

Module PyStrFacts.

Import PyStr.

Lemma take_drop (n : nat) (s : string) : take n s +:+ drop n s = s.
Proof.
  revert s; induction n as [|n IH]; intros [|c s]; try reflexivity.
  change (String c (take n s +:+ drop n s) = String c s).
  now rewrite IH.
Qed.

Lemma length_drop (n : nat) (s : string) :
  String.length (drop n s) = (String.length s - n)%nat.
Proof.
  revert s; induction n as [|n IH]; intros [|c s]; simpl; auto with arith.
Qed.

Lemma length_take (n : nat) (s : string) :
  String.length (take n s) = Nat.min n (String.length s).
Proof.
  revert s; induction n as [|n IH]; intros [|c s]; simpl; auto.
Qed.

Lemma drop_drop (n m : nat) (s : string) : drop m (drop n s) = drop (n + m) s.
Proof.
  revert s; induction n as [|n IH]; intros [|c s]; simpl; auto.
  now destruct m.
Qed.

Lemma drop_all (n : nat) (s : string) :
  (String.length s <= n)%nat -> drop n s = EmptyString.
Proof.
  intros Hle. pose proof (length_drop n s) as Hlen.
  destruct (drop n s); [reflexivity | simpl in Hlen; lia].
Qed.

Lemma take_all (n : nat) (s : string) :
  (String.length s <= n)%nat -> take n s = s.
Proof.
  revert s; induction n as [|n IH]; intros [|c s]; simpl; intros Hle;
    try reflexivity; try lia.
  rewrite IH; [reflexivity | lia].
Qed.

Lemma len_nonneg (s : string) : 0 <= len s.
Proof. unfold len; lia. Qed.

Lemma len_pos (s : string) : s <> EmptyString -> 0 < len s.
Proof. destruct s; [congruence | unfold len; simpl; lia]. Qed.

(** A slice whose bounds lie inside the string, in order. *)
Lemma slice_inside (s : string) (a b : Z) :
  0 <= a -> a <= b -> b <= len s ->
  slice s a b = take (Z.to_nat (b - a)) (drop (Z.to_nat a) s).
Proof.
  intros Ha Hab Hb. unfold slice, adjust_index.
  destruct (Z.ltb_spec a 0); [lia|].
  destruct (Z.ltb_spec b 0); [lia|].
  now rewrite !Z.min_l by lia.
Qed.

(** The whole string, whatever lies beyond its end. *)
Lemma slice_whole (s : string) (b : Z) : len s <= b -> slice s 0 b = s.
Proof.
  intros Hb. unfold slice, adjust_index. pose proof (len_nonneg s).
  destruct (Z.ltb_spec 0 0); [lia|].
  destruct (Z.ltb_spec b 0); [lia|].
  rewrite (Z.min_l 0 (len s)), (Z.min_r b (len s)) by lia.
  change (Z.to_nat 0) with O. cbn [drop].
  apply take_all. unfold len. lia.
Qed.

End PyStrFacts.

(* ===================================================================== *)
(** ** The chunker *)
(* ===================================================================== *)

Module ChunkerFacts.

Import TextProcessing Properties PyStrFacts.

(** More fuel never changes a result already reached. *)
Lemma chunk_loop_fuel_mono (text : string) (chunk_size overlap : Z) :
  forall (fuel fuel' : nat) (start : Z) (chunks result : list string),
    (fuel <= fuel')%nat ->
    chunk_loop fuel text chunk_size overlap start chunks = Some result ->
    chunk_loop fuel' text chunk_size overlap start chunks = Some result.
Proof.
  induction fuel as [|fuel IH]; intros fuel' start chunks result Hle Hrun.
  - discriminate.
  - destruct fuel' as [|fuel']; [lia|]. simpl in *.
    destruct (chunk_step text chunk_size overlap start chunks)
      as [done | [start' chunks']]; [assumption|].
    apply IH; [lia | assumption].
Qed.

(** The window never ends beyond the text, so with a positive overlap the
    cursor, once below the text length, stays below it. *)
Lemma chunk_step_cursor_below (text : string) (chunk_size overlap : Z)
      (start : Z) (chunks : list string) :
  0 < overlap -> start < PyStr.len text ->
  exists start' chunks',
    chunk_step text chunk_size overlap start chunks = inr (start', chunks')
    /\ start' < PyStr.len text.
Proof.
  intros Hov Hstart. unfold chunk_step.
  destruct (Z.ltb_spec start (PyStr.len text)); [|lia].
  eexists _, _; split; [reflexivity|].
  destruct (Z.gtb_spec (start + chunk_size) (PyStr.len text)); lia.
Qed.

(** With a positive overlap the loop condition is true at every test. *)
Lemma chunk_loop_positive_overlap (text : string) (chunk_size overlap : Z) :
  0 < overlap ->
  forall (fuel : nat) (start : Z) (chunks : list string),
    start < PyStr.len text ->
    chunk_loop fuel text chunk_size overlap start chunks = None.
Proof.
  intros Hov. induction fuel as [|fuel IH]; intros start chunks Hstart.
  - reflexivity.
  - simpl.
    destruct (chunk_step_cursor_below text chunk_size overlap start chunks
                Hov Hstart) as (start' & chunks' & -> & Hbelow).
    now apply IH.
Qed.

(** On a text that is not empty, a positive overlap makes [chunk_text]
    run for ever, whatever the chunk size. *)
Lemma chunk_text_positive_overlap (text : string) (chunk_size overlap : Z) :
  text <> EmptyString -> 0 < overlap ->
  chunk_text_diverges text chunk_size overlap.
Proof.
  intros Hne Hov fuel. unfold chunk_text.
  apply chunk_loop_positive_overlap; [assumption | now apply len_pos].
Qed.

(** A text no longer than the chunk size, cut without overlap, is one
    chunk: the text. *)
Lemma chunk_text_short_text_zero_overlap (text : string) (chunk_size : Z) :
  0 < PyStr.len text <= chunk_size ->
  chunk_text 2 text chunk_size 0 = Some [text].
Proof.
  intros Hlen. unfold chunk_text. cbn [chunk_loop]. unfold chunk_step.
  destruct (Z.ltb_spec 0 (PyStr.len text)) as [_ | ?]; [| lia].
  assert (Hstop : (if 0 + chunk_size >? PyStr.len text
                   then PyStr.len text else 0 + chunk_size) = PyStr.len text).
  { destruct (Z.gtb_spec (0 + chunk_size) (PyStr.len text)); lia. }
  rewrite Hstop.
  destruct (Z.ltb_spec (PyStr.len text - 0) (PyStr.len text)) as [? | _];
    [lia |].
  now rewrite slice_whole by lia.
Qed.

(** Without overlap every iteration moves the cursor forward: the loop
    is over after at most [len text - start] iterations, and what it
    appends is the rest of the text cut into pieces. *)
Lemma chunk_loop_zero_overlap (text : string) (chunk_size : Z) :
  0 < chunk_size ->
  forall (fuel : nat) (start : Z) (chunks : list string),
    0 <= start <= PyStr.len text ->
    (Z.to_nat (PyStr.len text - start) < fuel)%nat ->
    exists rest,
      chunk_loop fuel text chunk_size 0 start chunks = Some (chunks ++ rest)
      /\ PyStr.join rest = PyStr.drop (Z.to_nat start) text.
Proof.
  intros Hsize. induction fuel as [|fuel IH]; intros start chunks Hstart Hfuel.
  - lia.
  - simpl. unfold chunk_step.
    destruct (Z.ltb_spec start (PyStr.len text)) as [Hlt | Hge].
    + set (stop := if start + chunk_size >? PyStr.len text
                   then PyStr.len text else start + chunk_size).
      assert (Hstop : start < stop <= PyStr.len text).
      { subst stop.
        destruct (Z.gtb_spec (start + chunk_size) (PyStr.len text)); lia. }
      destruct (IH (stop - 0)
                   (chunks ++ [PyStr.slice text start stop]))
        as (rest & Hrun & Hjoin); [lia | lia |].
      exists (PyStr.slice text start stop :: rest). split.
      * rewrite Hrun. now rewrite <- app_assoc.
      * simpl. rewrite Hjoin.
        rewrite slice_inside by lia.
        replace (Z.to_nat (stop - 0))
          with (Z.to_nat start + Z.to_nat (stop - start))%nat by lia.
        rewrite <- drop_drop. apply take_drop.
    + exists []. split; [now rewrite app_nil_r|].
      simpl. symmetry. apply drop_all. unfold PyStr.len in *. lia.
Qed.

(** Without overlap every chunk but the last one has exactly
    [chunk_size] characters. *)
Lemma chunk_loop_zero_overlap_sizes (text : string) (chunk_size : Z) :
  0 < chunk_size ->
  forall (fuel : nat) (start : Z) (chunks result : list string),
    0 <= start <= PyStr.len text ->
    chunk_loop fuel text chunk_size 0 start chunks = Some result ->
    exists rest,
      result = chunks ++ rest
      /\ (start = PyStr.len text -> rest = [])
      /\ all_but_last (fun chunk => PyStr.len chunk = chunk_size) rest.
Proof.
  intros Hsize.
  induction fuel as [|fuel IH]; intros start chunks result Hstart Hrun.
  - discriminate.
  - simpl in Hrun. unfold chunk_step in Hrun.
    destruct (Z.ltb_spec start (PyStr.len text)) as [Hlt | Hge].
    + set (stop := if start + chunk_size >? PyStr.len text
                   then PyStr.len text else start + chunk_size) in *.
      assert (Hstop : start < stop <= PyStr.len text
                      /\ (stop <> PyStr.len text -> stop = start + chunk_size)).
      { subst stop.
        destruct (Z.gtb_spec (start + chunk_size) (PyStr.len text)); lia. }
      destruct Hstop as [Hstop Hfull].
      apply IH in Hrun as (rest & -> & Hend & Hsizes); [| lia].
      exists (PyStr.slice text start stop :: rest).
      split; [now rewrite <- app_assoc|]. split; [lia|].
      destruct rest as [|chunk rest]; [exact I|].
      split; [| exact Hsizes].
      assert (Hstop' : stop <> PyStr.len text).
      { intros Heq. assert (Hnil : chunk :: rest = []) by (apply Hend; lia).
        discriminate. }
      rewrite slice_inside by lia. unfold PyStr.len in *.
      rewrite length_take, length_drop. lia.
    + inversion Hrun; subst. exists []. split; [now rewrite app_nil_r|].
      split; [reflexivity | exact I].
Qed.

Lemma chunk_text_zero_overlap_sizes (text : string) (chunk_size : Z)
      (fuel : nat) (chunks : list string) :
  0 < chunk_size ->
  chunk_text fuel text chunk_size 0 = Some chunks ->
  all_but_last (fun chunk => PyStr.len chunk = chunk_size) chunks.
Proof.
  intros Hsize Hrun. pose proof (len_nonneg text).
  apply (chunk_loop_zero_overlap_sizes text chunk_size Hsize) in Hrun
    as (rest & -> & _ & Hsizes); [exact Hsizes | lia].
Qed.

End ChunkerFacts.

(* ===================================================================== *)
(** ** The effect monad *)
(* ===================================================================== *)

Module MonadFacts.

Import Properties.

(** What a bind that comes back did: its first part returned and the
    continuation ran, or its first part raised. *)
Lemma bind_inv {A B : Type} (m : M A) (k : A -> M B) (s s' : State)
      (r : outcome B) :
  (m ≫= k) s = Some (r, s') ->
  (exists a s1, m s = Some (Ok a, s1) /\ k a s1 = Some (r, s'))
  \/ (exists e, m s = Some (Raise e, s') /\ r = Raise e).
Proof.
  unfold mbind, M_bind. destruct (m s) as [[[a | e] s1] |]; intros H.
  - left. now exists a, s1.
  - right. exists e. now inversion H.
  - discriminate.
Qed.

Lemma bind_inv_ok {A B : Type} (m : M A) (k : A -> M B) (s s' : State)
      (b : B) :
  (m ≫= k) s = Some (Ok b, s') ->
  exists a s1, m s = Some (Ok a, s1) /\ k a s1 = Some (Ok b, s').
Proof.
  intros H. destruct (bind_inv _ _ _ _ _ H) as [Hok | (e & _ & Hr)];
    [assumption | discriminate].
Qed.

Lemma lift_inv {A : Type} (o : outcome A) (s s' : State) (r : outcome A) :
  lift o s = Some (r, s') -> r = o /\ s' = s.
Proof. unfold lift. intros H. now inversion H. Qed.

Lemma keeps_history_ret {A : Type} (a : A) : keeps_history (mret a).
Proof. intros s r s' H. now inversion H. Qed.

Lemma keeps_history_lift {A : Type} (o : outcome A) : keeps_history (lift o).
Proof. intros s r s' H. now inversion H. Qed.

Lemma keeps_history_lift_fuel {A : Type} (o : option A) :
  keeps_history (lift_fuel o).
Proof. intros s r s' H. unfold lift_fuel in H. destruct o; now inversion H. Qed.

Lemma keeps_history_bind {A B : Type} (m : M A) (k : A -> M B) :
  keeps_history m -> (forall a, keeps_history (k a)) ->
  keeps_history (m ≫= k).
Proof.
  intros Hm Hk s r s' H.
  destruct (bind_inv _ _ _ _ _ H) as [(a & s1 & H1 & H2) | (e & H1 & _)].
  - rewrite (Hk _ _ _ _ H2). eapply Hm, H1.
  - eapply Hm, H1.
Qed.

Lemma keeps_history_generate_unique_id (svc : Services) :
  keeps_history (generate_unique_id svc).
Proof. intros s r s' H. now inversion H. Qed.

Lemma keeps_history_read_clock (fmt : nat -> string) :
  keeps_history (read_clock fmt).
Proof. intros s r s' H. now inversion H. Qed.

Lemma on_raise_of_keeps {A : Type} (m : M A) :
  keeps_history m -> keeps_history_on_raise m.
Proof. intros Hm s e s' H. eapply Hm, H. Qed.

Lemma on_raise_bind {A B : Type} (m : M A) (k : A -> M B) :
  keeps_history m -> (forall a, keeps_history_on_raise (k a)) ->
  keeps_history_on_raise (m ≫= k).
Proof.
  intros Hm Hk s e s' H.
  destruct (bind_inv _ _ _ _ _ H) as [(a & s1 & H1 & H2) | (e' & H1 & _)].
  - rewrite (Hk _ _ _ _ H2). eapply Hm, H1.
  - eapply Hm, H1.
Qed.

Create HintDb history.

#[export] Hint Resolve keeps_history_ret keeps_history_lift
  keeps_history_lift_fuel keeps_history_generate_unique_id
  keeps_history_read_clock : history.

End MonadFacts.

(* ===================================================================== *)
(** ** The ingestion pipeline *)
(* ===================================================================== *)

Module IngestionFacts.

Import NewsAgentPlugin TextProcessing Properties MonadFacts.

Lemma truthy_false (s : string) : PyStr.truthy s = false <-> s = EmptyString.
Proof. destruct s; simpl; split; congruence. Qed.

Lemma process_loop_skip (fuel : nat) (cfg : Config) (svc : Services)
      (article : Article) (rest : list Article) (session_id : string)
      (processed_data : list Row) :
  skipped svc article ->
  process_loop fuel cfg svc (article :: rest) session_id processed_data
  = process_loop fuel cfg svc rest session_id processed_data.
Proof. unfold skipped. intros Hskip. simpl. now rewrite Hskip. Qed.

Lemma keeps_history_process_chunks (svc : Services) (article : Article)
      (session_id article_id : string) :
  forall chunks processed_data,
    keeps_history (process_chunks svc article session_id article_id chunks
                                  processed_data).
Proof.
  induction chunks as [|chunk rest IH]; intros processed_data; simpl.
  - auto with history.
  - apply keeps_history_bind; [auto with history | intros chunk_id].
    apply keeps_history_bind; [auto with history | intros embedding].
    apply IH.
Qed.

Lemma keeps_history_process_loop (fuel : nat) (cfg : Config) (svc : Services)
      (session_id : string) :
  forall articles processed_data,
    keeps_history (process_loop fuel cfg svc articles session_id
                                processed_data).
Proof.
  induction articles as [|article rest IH]; intros processed_data; simpl.
  - auto with history.
  - destruct (negb (PyStr.truthy (scrape_article svc (art_url article)))).
    + apply IH.
    + apply keeps_history_bind; [auto with history | intros chunks].
      apply keeps_history_bind; [auto with history | intros article_id].
      apply keeps_history_bind;
        [apply keeps_history_process_chunks | intros rows; apply IH].
Qed.

Lemma keeps_history_add_entry (svc : Services) (e : Entry) :
  keeps_history (add_entry svc e).
Proof.
  intros s r s' H. unfold add_entry in H.
  destruct (collection_add svc (collection s) e); now inversion H.
Qed.

Lemma keeps_history_store (svc : Services) :
  forall df, keeps_history (store_in_vector_db svc df).
Proof.
  induction df as [|row rest IH]; simpl.
  - auto with history.
  - apply keeps_history_bind; [apply keeps_history_add_entry | intros _; apply IH].
Qed.

(** When the chunk loop returns rows, every embedding call succeeded. *)
Lemma process_chunks_ok (svc : Services) (article : Article)
      (session_id article_id : string) :
  forall chunks processed_data s rows s',
    process_chunks svc article session_id article_id chunks processed_data s
    = Some (Ok rows, s') ->
    Forall (embedded svc) chunks.
Proof.
  induction chunks as [|chunk rest IH]; intros processed_data s rows s' H.
  - constructor.
  - simpl in H.
    apply bind_inv_ok in H as (chunk_id & s1 & _ & H).
    apply bind_inv_ok in H as (embedding & s2 & Hembed & H).
    apply lift_inv in Hembed as [Hembed _].
    constructor; [now exists embedding | eapply IH, H].
Qed.

Lemma lift_fuel_inv {A : Type} (o : option A) (s s' : State) (a : A) :
  lift_fuel o s = Some (Ok a, s') -> o = Some a /\ s' = s.
Proof. unfold lift_fuel. destruct o; intros H; now inversion H. Qed.

(** When the article loop returns rows, every article was passed over or
    ingested in full. *)
Lemma process_loop_ok (fuel : nat) (cfg : Config) (svc : Services)
      (session_id : string) :
  forall articles processed_data s rows s',
    process_loop fuel cfg svc articles session_id processed_data s
    = Some (Ok rows, s') ->
    Forall (ingested fuel cfg svc) articles.
Proof.
  induction articles as [|article rest IH]; intros processed_data s rows s' H.
  - constructor.
  - simpl in H.
    destruct (PyStr.truthy (scrape_article svc (art_url article))) eqn:Htruthy;
      simpl in H.
    + apply bind_inv_ok in H as (chunks & s1 & Hchunks & H).
      apply lift_fuel_inv in Hchunks as [Hchunks _].
      apply bind_inv_ok in H as (article_id & s2 & _ & H).
      apply bind_inv_ok in H as (rows1 & s3 & Hrows & H).
      constructor; [| eapply IH, H].
      right. exists chunks. split; [assumption|].
      eapply process_chunks_ok, Hrows.
    + constructor; [| eapply IH, H].
      left. now apply truthy_false.
Qed.

(** With a positive overlap setting the article loop does not come back
    once it meets an article that has text. *)
Lemma process_loop_positive_overlap (cfg : Config) (svc : Services)
      (session_id : string) :
  0 < CHUNK_OVERLAP cfg ->
  forall articles,
    Exists (fun article => ~ skipped svc article) articles ->
    forall fuel processed_data s,
      process_loop fuel cfg svc articles session_id processed_data s = None.
Proof.
  intros Hov articles Hex.
  induction articles as [|article rest IH]; intros fuel processed_data s.
  - inversion Hex.
  - simpl.
    destruct (PyStr.truthy (scrape_article svc (art_url article))) eqn:Htruthy;
      simpl.
    + unfold mbind, M_bind, lift_fuel.
      rewrite (ChunkerFacts.chunk_text_positive_overlap
                 (scrape_article svc (art_url article))
                 (CHUNK_SIZE cfg) (CHUNK_OVERLAP cfg)); [reflexivity | | assumption].
      intros Hempty. rewrite Hempty in Htruthy. discriminate.
    + apply IH. inversion Hex as [? ? Hhere | ? ? Hlater]; subst.
      * exfalso. apply Hhere. now apply truthy_false.
      * assumption.
Qed.

End IngestionFacts.

(* ===================================================================== *)
(** ** The orchestrator *)
(* ===================================================================== *)

Module ControlFacts.

Import NewsAgentPlugin ControlAgent Properties MonadFacts IngestionFacts.

Section SummaryLoop.

Variable svc : Services.
Variables company_name time_period : string.
Variable max_results : Z.

(** The loop reads the collection and writes nothing. *)
Lemma summary_loop_state :
  forall focus_points news_summary s r s',
    summary_loop svc company_name time_period max_results focus_points
                 news_summary s = Some (r, s') ->
    s' = s.
Proof.
  induction focus_points as [|focus_point rest IH]; intros acc s r s' H.
  - now inversion H.
  - simpl in H.
    apply bind_inv in H as [(results & s1 & H1 & H2) | (e & H1 & _)].
    + apply lift_inv in H1 as [_ ->]. eapply IH, H2.
    + now apply lift_inv in H1 as [_ ->].
Qed.

(** The loop always comes back. *)
Lemma summary_loop_total :
  forall focus_points news_summary s,
    exists r,
      summary_loop svc company_name time_period max_results focus_points
                   news_summary s = Some (r, s).
Proof.
  induction focus_points as [|focus_point rest IH]; intros acc s.
  - eexists; reflexivity.
  - simpl. unfold mbind, M_bind, lift.
    destruct (retrieve_from_vector_db svc (collection s)
                (query_of company_name focus_point time_period) max_results)
      as [results | e].
    + apply IH.
    + eexists; reflexivity.
Qed.

(** When the loop returns, it has appended one block per focus point, in
    the order of the focus points. *)
Lemma summary_loop_ok :
  forall focus_points news_summary s result s',
    summary_loop svc company_name time_period max_results focus_points
                 news_summary s = Some (Ok result, s') ->
    exists blocks,
      result = news_summary ++ blocks
      /\ Forall2 (block_of svc (collection s) company_name time_period
                           max_results)
                 focus_points blocks.
Proof.
  induction focus_points as [|focus_point rest IH]; intros acc s result s' H.
  - inversion H; subst. exists []. split; [now rewrite app_nil_r | constructor].
  - simpl in H.
    apply bind_inv_ok in H as (results & s1 & H1 & H2).
    apply lift_inv in H1 as [Hretrieve ->].
    apply IH in H2 as (blocks & -> & Hblocks).
    eexists (_ :: blocks). split; [now rewrite <- app_assoc|].
    constructor; [| assumption].
    split; [reflexivity|]. exists results. split; [now symmetry | reflexivity].
Qed.

(** When the loop raises, the exception is that of a retrieval. *)
Lemma summary_loop_raise :
  forall focus_points news_summary s e s',
    summary_loop svc company_name time_period max_results focus_points
                 news_summary s = Some (Raise e, s') ->
    Exists (retrieval_fails svc (collection s) company_name time_period
                            max_results e)
           focus_points.
Proof.
  induction focus_points as [|focus_point rest IH]; intros acc s e s' H.
  - discriminate.
  - simpl in H.
    apply bind_inv in H as [(results & s1 & H1 & H2) | (e' & H1 & He)].
    + apply lift_inv in H1 as [_ ->]. right. eapply IH, H2.
    + apply lift_inv in H1 as [Hretrieve _]. inversion He; subst.
      left. now symmetry.
Qed.

Lemma keeps_history_summary_loop :
  forall focus_points news_summary,
    keeps_history (summary_loop svc company_name time_period max_results
                                focus_points news_summary).
Proof.
  intros focus_points acc s r s' H.
  now rewrite (summary_loop_state _ _ _ _ _ H).
Qed.

End SummaryLoop.

Lemma forall2_map_fst {A B : Type} (f : B -> A) (P : A -> B -> Prop)
      (l : list A) (l' : list B) :
  (forall a b, P a b -> f b = a) -> Forall2 P l l' -> map f l' = l.
Proof.
  intros Hf Hall. induction Hall as [|a b l l' Hab _ IH]; simpl.
  - reflexivity.
  - now rewrite (Hf _ _ Hab), IH.
Qed.

(** What a run of the [try] body that reaches its [return] went through. *)
Lemma compose_body_ok (fuel : nat) (cfg : Config) (svc : Services)
      (company_name : string) (focus_points : list string)
      (session_id : string) (max_results : Z) (time_period : string)
      (s0 s1 : State) (r : ComposedResults) :
  compose_body fuel cfg svc company_name focus_points session_id max_results
               time_period s0 = Some (Ok r, s1) ->
  exists keywords_result industry keywords articles rows sa sb news_summary,
    extract_search_keywords svc company_name focus_points = Ok keywords_result
    /\ getitem keywords_result "industry" = Ok industry
    /\ getitem keywords_result "keywords" = Ok keywords
    /\ fetch_industry_news svc industry keywords = Ok articles
    /\ process_articles fuel cfg svc articles session_id s0 = Some (Ok rows, sa)
    /\ store_in_vector_db svc rows sa = Some (Ok tt, sb)
    /\ summary_loop svc company_name time_period max_results focus_points []
                    (snd (now (now_isoformat svc) sb))
       = Some (Ok news_summary, snd (now (now_isoformat svc) sb))
    /\ r = {| cr_company := company_name; cr_industry := industry;
              cr_focus_points := focus_points; cr_session_id := session_id;
              cr_timestamp := now_isoformat svc (clock sb);
              cr_news_summary := news_summary |}
    /\ collection s1 = collection sb
    /\ session_history s1
       = <[session_id :=
             {| sr_timestamp := now_isoformat svc (S (clock sb));
                sr_company := company_name; sr_industry := industry;
                sr_focus_points := focus_points |}]> (session_history sb).
Proof.
  unfold compose_body. intros H.
  apply bind_inv_ok in H as (keywords_result & ? & H1 & H).
  apply lift_inv in H1 as [Hextract ->].
  apply bind_inv_ok in H as (industry & ? & H1 & H).
  apply lift_inv in H1 as [Hindustry ->].
  apply bind_inv_ok in H as (keywords & ? & H1 & H).
  apply lift_inv in H1 as [Hkeywords ->].
  apply bind_inv_ok in H as (articles & ? & H1 & H).
  apply lift_inv in H1 as [Harticles ->].
  apply bind_inv_ok in H as (rows & sa & Hrows & H).
  apply bind_inv_ok in H as ([] & sb & Hstore & H).
  apply bind_inv_ok in H as (industry1 & ? & H1 & H).
  apply lift_inv in H1 as [Hindustry1 ->].
  apply bind_inv_ok in H as (timestamp & sc & Hclock & H).
  apply bind_inv_ok in H as (news_summary & sd & Hsummary & H).
  apply bind_inv_ok in H as (timestamp2 & se & Hclock2 & H).
  apply bind_inv_ok in H as (industry2 & ? & H1 & H).
  apply lift_inv in H1 as [Hindustry2 ->].
  apply bind_inv_ok in H as ([] & sf & Hsession & H).
  pose proof (summary_loop_state _ _ _ _ _ _ _ _ _ Hsummary) as ->.
  inversion Hclock; subst timestamp sc; clear Hclock.
  inversion Hclock2; subst timestamp2 se; clear Hclock2.
  inversion Hsession; subst sf; clear Hsession.
  inversion H; subst r s1; clear H.
  assert (industry1 = industry) as -> by congruence.
  assert (industry2 = industry) as -> by congruence.
  exists keywords_result, industry, keywords, articles, rows, sa, sb,
    news_summary.
  repeat split; try (symmetry; assumption); try assumption; reflexivity.
Qed.

(** The [try] body writes [session_history] in its last statement only:
    when it raises, the history is as it was. *)
Lemma compose_body_raise_history (fuel : nat) (cfg : Config) (svc : Services)
      (company_name : string) (focus_points : list string)
      (session_id : string) (max_results : Z) (time_period : string) :
  keeps_history_on_raise
    (compose_body fuel cfg svc company_name focus_points session_id
                  max_results time_period).
Proof.
  unfold compose_body.
  repeat (apply on_raise_bind;
          [ first [ apply keeps_history_process_loop
                  | apply keeps_history_store
                  | apply keeps_history_summary_loop
                  | solve [auto with history] ]
          | intros ? ]).
  intros s e s' H. unfold mbind, M_bind, store_session in H. discriminate.
Qed.

End ControlFacts.

Module ComposeFacts.

Import NewsAgentPlugin ControlAgent Properties MonadFacts IngestionFacts
       ControlFacts.

(** A completion that cannot be used is answered with the default dict. *)
Lemma parse_unusable (svc : Services) (result : option string) :
  unusable_completion svc result ->
  parse_llm_output svc result = default_keywords.
Proof.
  destruct result as [text|]; simpl; [| reflexivity].
  intros [Hblank | [e Hloads]].
  - rewrite Hblank. now rewrite orb_true_r.
  - destruct (negb (PyStr.truthy text) || PyStr.is_blank text);
      [reflexivity | now rewrite Hloads].
Qed.

Lemma resolve_session_id_state (svc : Services) (session_id : option string)
      (s : State) :
  collection (snd (resolve_session_id svc session_id s)) = collection s
  /\ session_history (snd (resolve_session_id svc session_id s))
     = session_history s.
Proof. destruct session_id; split; reflexivity. Qed.

(** A composed report is what the [try] body returned. *)
Lemma compose_inv_composed (fuel : nat) (cfg : Config) (svc : Services)
      (company_name : string) (focus_points : list string)
      (session_id : option string) (max_results : Z) (time_period : string)
      (s s' : State) (r : ComposedResults) :
  compose_industry_news fuel cfg svc company_name focus_points session_id
                        max_results time_period s = Some (Composed r, s') ->
  compose_body fuel cfg svc company_name focus_points
               (fst (resolve_session_id svc session_id s)) max_results
               time_period (snd (resolve_session_id svc session_id s))
  = Some (Ok r, s').
Proof.
  unfold compose_industry_news.
  destruct (resolve_session_id svc session_id s) as [sid s0]. simpl.
  destruct (compose_body fuel cfg svc company_name focus_points sid
                         max_results time_period s0)
    as [[[r0 | e] s1] |]; intros H; inversion H; reflexivity.
Qed.

(** An error envelope is what the handler made of an exception of the
    [try] body; it carries the session id in use. *)
Lemma compose_inv_error (fuel : nat) (cfg : Config) (svc : Services)
      (company_name : string) (focus_points : list string)
      (session_id : option string) (max_results : Z) (time_period : string)
      (s s' : State) (error sid timestamp : string) :
  compose_industry_news fuel cfg svc company_name focus_points session_id
                        max_results time_period s
  = Some (ErrorResponse error sid timestamp, s') ->
  sid = fst (resolve_session_id svc session_id s)
  /\ exists e s1,
      compose_body fuel cfg svc company_name focus_points sid max_results
                   time_period (snd (resolve_session_id svc session_id s))
      = Some (Raise e, s1)
      /\ error = str_of_exn e
      /\ timestamp = now_isoformat svc (clock s1)
      /\ s' = snd (now (now_isoformat svc) s1).
Proof.
  unfold compose_industry_news.
  destruct (resolve_session_id svc session_id s) as [sid0 s0]. simpl.
  destruct (compose_body fuel cfg svc company_name focus_points sid0
                         max_results time_period s0)
    as [[[r0 | e] s1] |] eqn:Hbody; intros H; inversion H; subst.
  split; [reflexivity|]. exists e, s1. now rewrite Hbody.
Qed.

(** With the default dict nothing is searched, fetched or stored: the
    [try] body goes straight to the retrievals. *)
Lemma compose_body_default (fuel : nat) (cfg : Config) (svc : Services)
      (company_name : string) (focus_points : list string)
      (session_id : string) (max_results : Z) (time_period : string)
      (s0 : State) :
  extract_search_keywords svc company_name focus_points = Ok default_keywords ->
  compose_body fuel cfg svc company_name focus_points session_id max_results
               time_period s0
  = (timestamp ← read_clock (now_isoformat svc);
     news_summary ← summary_loop svc company_name time_period max_results
                      focus_points [];
     timestamp2 ← read_clock (now_isoformat svc);
     _ ← store_session session_id
           {| sr_timestamp := timestamp2; sr_company := company_name;
              sr_industry := JNull; sr_focus_points := focus_points |};
     mret {| cr_company := company_name; cr_industry := JNull;
             cr_focus_points := focus_points; cr_session_id := session_id;
             cr_timestamp := timestamp; cr_news_summary := news_summary |}) s0.
Proof.
  intros Hextract. unfold compose_body. rewrite Hextract. reflexivity.
Qed.

End ComposeFacts.

(* ===================================================================== *)
(** ** The chunker: termination and coverage *)
(* ===================================================================== *)

Import TextProcessing NewsAgentPlugin ControlAgent Properties.

(** C1: for a text that is not empty and [overlap >= chunk_size > 0],
    [chunk_text] raises nothing and does not terminate: after the first
    window the cursor is [end - overlap], still below the text length, so
    the loop condition stays true for ever.  The claim asks for a
    [ConfigurationError] or termination; the code does neither. *)
Theorem chunk_text_overlap_ge_size_never_returns
        (text : string) (chunk_size overlap : Z) :
  text <> EmptyString -> 0 < chunk_size -> chunk_size <= overlap ->
  chunk_text_diverges text chunk_size overlap.
Proof.
  intros Hne Hsize Hov.
  apply ChunkerFacts.chunk_text_positive_overlap; [assumption | lia].
Qed.

(** The example of the claim: [chunk_size = 1000], [overlap = 1000]. *)
Lemma chunk_text_1000_1000_out_of_fuel :
  "a"%string <> EmptyString /\ 0 < 1000 /\ 1000 <= 1000
  /\ chunk_text 5000 "a" 1000 1000 = None.
Proof.
  split; [discriminate|]. split; [lia|]. split; [lia|].
  apply (chunk_text_overlap_ge_size_never_returns "a" 1000 1000);
    [discriminate | lia | lia].
Defined.

(** C2: for a text with [0 < len(T) <= chunk_size] and an overlap with
    [0 < overlap < chunk_size], [chunk_text] does not return [[T]]: it
    does not return at all.  The first window is the whole text, and the
    cursor then goes back to [len(T) - overlap]. *)
Theorem chunk_text_short_text_never_returns
        (text : string) (chunk_size overlap : Z) :
  0 < PyStr.len text <= chunk_size -> 0 < overlap < chunk_size ->
  chunk_text_diverges text chunk_size overlap.
Proof.
  intros Hlen Hov.
  apply ChunkerFacts.chunk_text_positive_overlap; [| lia].
  intros ->. unfold PyStr.len in Hlen. simpl in Hlen. lia.
Qed.

Lemma chunk_text_abc_10_2_out_of_fuel :
  0 < PyStr.len "abc" <= 10 /\ 0 < 2 < 10
  /\ chunk_text 100 "abc" 10 2 = None.
Proof.
  assert (Hlen : 0 < PyStr.len "abc" <= 10) by (unfold PyStr.len; simpl; lia).
  split; [exact Hlen|]. split; [lia|].
  apply (chunk_text_short_text_never_returns "abc" 10 2); [exact Hlen | lia].
Defined.

(** C3: for a text that is not empty and [0 < overlap < chunk_size],
    [chunk_text] returns no sequence of spans: once a window has reached
    the end of the text the loop goes on emitting the last [overlap]
    characters for ever. *)
Theorem chunk_text_valid_overlap_never_returns
        (text : string) (chunk_size overlap : Z) :
  text <> EmptyString -> 0 < overlap < chunk_size ->
  chunk_text_diverges text chunk_size overlap.
Proof.
  intros Hne Hov.
  apply ChunkerFacts.chunk_text_positive_overlap; [assumption | lia].
Qed.

Lemma chunk_text_abcde_3_1_out_of_fuel :
  "abcde"%string <> EmptyString /\ 0 < 1 < 3
  /\ chunk_text 100 "abcde" 3 1 = None.
Proof.
  split; [discriminate|]. split; [lia|].
  apply (chunk_text_valid_overlap_never_returns "abcde" 3 1);
    [discriminate | lia].
Defined.

(** C10: for every text and every [chunk_size > 0], [chunk_text] with
    overlap zero terminates (within [len(T) + 1] tests of the loop
    condition) and the chunks it returns, joined in order, are the
    text. *)
Theorem chunk_text_zero_overlap_join (text : string) (chunk_size : Z) :
  0 < chunk_size ->
  exists chunks,
    (forall fuel, (String.length text < fuel)%nat ->
                  chunk_text fuel text chunk_size 0 = Some chunks)
    /\ PyStr.join chunks = text.
Proof.
  intros Hsize. pose proof (PyStrFacts.len_nonneg text) as Hlen.
  destruct (ChunkerFacts.chunk_loop_zero_overlap text chunk_size Hsize
              (S (String.length text)) 0 [])
    as (chunks & Hrun & Hjoin).
  { lia. }
  { unfold PyStr.len. lia. }
  exists chunks. split; [| exact Hjoin].
  intros fuel Hfuel. unfold chunk_text.
  apply (ChunkerFacts.chunk_loop_fuel_mono _ _ _ (S (String.length text)));
    [lia | exact Hrun].
Qed.

Lemma chunk_text_zero_overlap_join_abcdefg :
  0 < 3
  /\ exists chunks,
      chunk_text 8 "abcdefg" 3 0 = Some chunks
      /\ PyStr.join chunks = "abcdefg"%string.
Proof.
  split; [lia|].
  destruct (chunk_text_zero_overlap_join "abcdefg" 3) as (chunks & Hrun & Hjoin);
    [lia|].
  exists chunks. split; [| exact Hjoin].
  apply Hrun. simpl. lia.
Defined.

(* ===================================================================== *)
(** ** The ingestion pipeline: what a failure does *)
(* ===================================================================== *)

Import Scenarios.

(** The pass over an article without text is there: under settings with
    which the chunker returns, the rows are those of pages [u1] and [u3],
    and page [u2], whose fetch fails, contributes none. *)
Example process_articles_passes_over_u2 :
  (fun run => match fst run with
              | Ok rows => map (fun row => (row_link row, row_chunked_text row))
                               rows
              | Raise _ => []
              end)
    <$> process_articles 5 config_no_overlap svc_all_ok three_articles "s1"
                         initial_state
  = Some [("u1", "abc"); ("u1", "def"); ("u3", "xyz")]%string.
Proof. vm_compute. reflexivity. Qed.

(** C6: with the settings of config.py ([CHUNK_OVERLAP = 200]) a batch
    that holds one article with text never leaves [process_articles]:
    the articles whose fetch fails are passed over, and the first one
    that has text is handed to [chunk_text], which does not return.  No
    indexed-chunk record is produced for the articles that fetch
    successfully. *)
Theorem process_articles_never_returns_on_text
        (svc : Services) (articles : list Article) (session_id : string)
        (s : State) :
  Exists (fun article => ~ skipped svc article) articles ->
  forall fuel,
    process_articles fuel config_py svc articles session_id s = None.
Proof.
  intros Hex fuel. unfold process_articles.
  apply IngestionFacts.process_loop_positive_overlap;
    [simpl; lia | assumption].
Qed.

(** Three articles; the fetch of the second one fails. *)
Lemma process_articles_three_articles_out_of_fuel :
  Exists (fun article => ~ skipped svc_all_ok article) three_articles
  /\ skipped svc_all_ok (article_of_hit "A" (JList [JStr "ev"]) (hit "u2"))
  /\ process_articles 4000 config_py svc_all_ok three_articles "s1"
                      initial_state = None.
Proof.
  assert (Hex : Exists (fun article => ~ skipped svc_all_ok article)
                       three_articles).
  { apply Exists_cons_hd. unfold skipped. simpl. discriminate. }
  split; [exact Hex|]. split; [reflexivity|].
  exact (process_articles_never_returns_on_text svc_all_ok three_articles
           "s1" initial_state Hex 4000).
Defined.

(* ===================================================================== *)
(** ** The orchestrator *)
(* ===================================================================== *)

(** C4, as stated, fails: the completion service answers with an empty
    string (first run) or with text that is not JSON (second run), and
    [compose_industry_news] returns a composed report whose industry is
    [None], built from what the collection already held. *)
Lemma unusable_completion_is_composed :
  unusable_completion svc_empty_completion (Some EmptyString)
  /\ unusable_completion svc_bad_completion
                         (Some "Sorry, I cannot help."%string)
  /\ (exists r s',
         compose_industry_news 5 config_py svc_empty_completion "Tesla"
           ["A"; "B"]%string (Some "s1"%string) 5 "last_month" initial_state
         = Some (Composed r, s')
         /\ cr_industry r = JNull
         /\ map fps_focus_point (cr_news_summary r) = ["A"; "B"]%string)
  /\ (exists r s',
         compose_industry_news 5 config_py svc_bad_completion "Tesla"
           ["A"; "B"]%string (Some "s1"%string) 5 "last_month" initial_state
         = Some (Composed r, s')
         /\ cr_industry r = JNull
         /\ map fps_focus_point (cr_news_summary r) = ["A"; "B"]%string).
Proof.
  split; [left; reflexivity|].
  split; [right; eexists; reflexivity|].
  split; eexists _, _; (split; [vm_compute; reflexivity | split; reflexivity]).
Qed.

(** C4, amended: when the completion has no text, only white space, or
    text that [json.loads] rejects, [extract_search_keywords] answers
    with the default dict, nothing is searched or ingested, and
    [compose_industry_news] returns: a composed report with industry
    [None] and one block per focus point when every retrieval succeeds,
    and the error envelope, with the session id, only when a retrieval
    raises. *)
Theorem compose_after_unusable_completion
        (fuel : nat) (cfg : Config) (svc : Services)
        (company_name : string) (focus_points : list string)
        (session_id : option string) (max_results : Z)
        (time_period : string) (s : State) (result : option string) :
  run_async svc company_name focus_points = Ok result ->
  unusable_completion svc result ->
  exists response s',
    compose_industry_news fuel cfg svc company_name focus_points session_id
                          max_results time_period s = Some (response, s')
    /\ collection s' = collection s
    /\ match response with
       | Composed r =>
           cr_industry r = JNull
           /\ cr_session_id r = fst (resolve_session_id svc session_id s)
           /\ Forall2 (block_of svc (collection s) company_name time_period
                                max_results)
                      focus_points (cr_news_summary r)
       | ErrorResponse error sid timestamp =>
           sid = fst (resolve_session_id svc session_id s)
           /\ exists e,
               error = str_of_exn e
               /\ Exists (retrieval_fails svc (collection s) company_name
                                          time_period max_results e)
                         focus_points
       end.
Proof.
  intros Hrun Hbad.
  assert (Hextract : extract_search_keywords svc company_name focus_points
                     = Ok default_keywords).
  { unfold extract_search_keywords. rewrite Hrun.
    now rewrite ComposeFacts.parse_unusable. }
  destruct (ComposeFacts.resolve_session_id_state svc session_id s)
    as [Hcoll _].
  unfold compose_industry_news.
  destruct (resolve_session_id svc session_id s) as [sid s0]. simpl in *.
  rewrite (ComposeFacts.compose_body_default _ _ _ _ _ _ _ _ _ Hextract).
  unfold mbind at 1, M_bind at 1. unfold read_clock at 1.
  set (s1 := snd (now (now_isoformat svc) s0)).
  change (now (now_isoformat svc) s0) with (now_isoformat svc (clock s0), s1).
  cbv iota beta.
  assert (Hcoll1 : collection s1 = collection s) by exact Hcoll.
  unfold mbind at 1, M_bind at 1.
  destruct (ControlFacts.summary_loop_total svc company_name time_period
              max_results focus_points [] s1) as [[news | e] Hloop];
    rewrite Hloop.
  - eexists _, _. split; [reflexivity|]. split; [exact Hcoll1|].
    simpl. split; [reflexivity|]. split; [reflexivity|].
    apply ControlFacts.summary_loop_ok in Hloop as (blocks & -> & Hblocks).
    now rewrite <- Hcoll1.
  - eexists _, _. split; [reflexivity|]. split; [exact Hcoll1|].
    split; [reflexivity|]. exists e. split; [reflexivity|].
    apply ControlFacts.summary_loop_raise in Hloop. now rewrite <- Hcoll1.
Qed.

Lemma compose_after_unusable_completion_empty :
  run_async svc_empty_completion "Tesla" ["A"; "B"]%string
  = Ok (Some EmptyString)
  /\ unusable_completion svc_empty_completion (Some EmptyString)
  /\ exists response s',
      compose_industry_news 5 config_py svc_empty_completion "Tesla"
        ["A"; "B"]%string (Some "s1"%string) 5 "last_month" initial_state
      = Some (response, s')
      /\ collection s' = [earlier_entry].
Proof.
  assert (Hbad : unusable_completion svc_empty_completion (Some EmptyString))
    by (left; reflexivity).
  split; [reflexivity|]. split; [exact Hbad|].
  destruct (compose_after_unusable_completion 5 config_py svc_empty_completion
              "Tesla" ["A"; "B"]%string (Some "s1"%string) 5 "last_month"
              initial_state (Some EmptyString) eq_refl Hbad)
    as (response & s' & Hcompose & Hcollection & _).
  now exists response, s'.
Defined.

(** C7: in every composed report the entries of [news_summary] are one
    per focus point and carry the focus points in the order of the
    input list.  The retrievals run one after the other in that order,
    so no completion order can differ from it. *)
Theorem news_summary_follows_focus_points
        (fuel : nat) (cfg : Config) (svc : Services)
        (company_name : string) (focus_points : list string)
        (session_id : option string) (max_results : Z)
        (time_period : string) (s s' : State) (r : ComposedResults) :
  compose_industry_news fuel cfg svc company_name focus_points session_id
                        max_results time_period s = Some (Composed r, s') ->
  map fps_focus_point (cr_news_summary r) = focus_points.
Proof.
  intros Hcompose.
  apply ComposeFacts.compose_inv_composed in Hcompose.
  apply ControlFacts.compose_body_ok in Hcompose
    as (kr & ind & kw & arts & rows & sa & sb & news
        & _ & _ & _ & _ & _ & _ & Hloop & -> & _).
  apply ControlFacts.summary_loop_ok in Hloop as (blocks & -> & Hblocks).
  simpl. eapply ControlFacts.forall2_map_fst; [| exact Hblocks].
  now intros fp block [Hfp _].
Qed.

Lemma news_summary_follows_focus_points_run :
  exists r s',
    compose_industry_news 5 config_py svc_no_pages "Tesla"
      ["A"; "B"; "C"]%string (Some "s1"%string) 5 "last_month" initial_state
    = Some (Composed r, s')
    /\ map fps_focus_point (cr_news_summary r) = ["A"; "B"; "C"]%string.
Proof.
  destruct (compose_industry_news 5 config_py svc_no_pages "Tesla"
              ["A"; "B"; "C"]%string (Some "s1"%string) 5 "last_month"
              initial_state)
    as [[[r | error sid timestamp] s'] |] eqn:Hcompose.
  - exists r, s'. split; [reflexivity|].
    exact (news_summary_follows_focus_points _ _ _ _ _ _ _ _ _ _ _ Hcompose).
  - vm_compute in Hcompose. discriminate.
  - vm_compute in Hcompose. discriminate.
Defined.

#[local] Set Warnings "-inexact-float".

(** C8: in every composed report there is one block per focus point, in
    the order of the focus points; the block of a focus point holds one
    summary per result of that focus point's retrieval on the
    collection, in the order of the results, and the relevance score of
    a summary is [1 - distance] of its result in binary64 arithmetic;
    for the distance 0.3 it is 0.7. *)
Theorem relevance_score_is_one_minus_distance
        (fuel : nat) (cfg : Config) (svc : Services)
        (company_name : string) (focus_points : list string)
        (session_id : option string) (max_results : Z)
        (time_period : string) (s s' : State) (r : ComposedResults) :
  compose_industry_news fuel cfg svc company_name focus_points session_id
                        max_results time_period s = Some (Composed r, s') ->
  Forall2 (scored_block svc (collection s') company_name time_period
                        max_results)
          focus_points (cr_news_summary r).
Proof.
  intros Hcompose.
  apply ComposeFacts.compose_inv_composed in Hcompose.
  apply ControlFacts.compose_body_ok in Hcompose
    as (kr & ind & kw & arts & rows & sa & sb & news
        & _ & _ & _ & _ & _ & _ & Hloop & -> & Hcoll & _).
  apply ControlFacts.summary_loop_ok in Hloop as (blocks & -> & Hblocks).
  simpl in *. rewrite Hcoll. clear Hcoll.
  induction Hblocks as [|fp block fps blocks [Hfp (results & Hret & Harts)] _ IH];
    constructor; [| exact IH].
  split; [exact Hfp|]. exists results. split; [exact Hret|].
  rewrite Harts. clear.
  induction results as [|result results IH]; simpl; constructor; [| exact IH].
  split; [reflexivity|]. simpl. intros ->. reflexivity.
Qed.

Lemma relevance_score_is_one_minus_distance_run :
  exists r s',
    compose_industry_news 5 config_py svc_no_pages "Tesla" ["A"; "B"]%string
      None 5 "last_month" initial_state
    = Some (Composed r, s')
    /\ Forall2 (scored_block svc_no_pages (collection s') "Tesla"
                             "last_month" 5)
               ["A"; "B"]%string (cr_news_summary r)
    /\ map (fun block => map as_relevance_score (fps_articles block))
           (cr_news_summary r)
       = [[0.7%float]; [0.7%float]].
Proof.
  destruct (compose_industry_news 5 config_py svc_no_pages "Tesla"
              ["A"; "B"]%string None 5 "last_month" initial_state)
    as [[[r | error sid timestamp] s'] |] eqn:Hcompose.
  - exists r, s'. split; [reflexivity|]. split.
    + exact (relevance_score_is_one_minus_distance _ _ _ _ _ _ _ _ _ _ _
               Hcompose).
    + vm_compute in Hcompose. inversion Hcompose. reflexivity.
  - vm_compute in Hcompose. discriminate.
  - vm_compute in Hcompose. discriminate.
Defined.

(** C9: a call of [compose_industry_news] that returns the error
    envelope leaves [session_history] as it was: no entry is added, for
    this session id or any other.  The only write to the history is the
    last statement of the [try] body, and nothing after it can raise. *)
Theorem error_envelope_leaves_history
        (fuel : nat) (cfg : Config) (svc : Services)
        (company_name : string) (focus_points : list string)
        (session_id : option string) (max_results : Z)
        (time_period : string) (s s' : State)
        (error sid timestamp : string) :
  compose_industry_news fuel cfg svc company_name focus_points session_id
                        max_results time_period s
  = Some (ErrorResponse error sid timestamp, s') ->
  session_history s' = session_history s
  /\ get_session_history sid s' = get_session_history sid s.
Proof.
  intros Hcompose.
  apply ComposeFacts.compose_inv_error in Hcompose
    as (_ & e & s1 & Hbody & _ & _ & ->).
  apply ControlFacts.compose_body_raise_history in Hbody.
  destruct (ComposeFacts.resolve_session_id_state svc session_id s)
    as [_ Hhist].
  assert (Heq : session_history (snd (now (now_isoformat svc) s1))
                = session_history s)
    by (simpl; now rewrite Hbody).
  split; [exact Heq|]. unfold get_session_history. now rewrite Heq.
Qed.

Lemma error_envelope_leaves_history_run :
  exists error timestamp s',
    compose_industry_news 5 config_py svc_search_down "Tesla"
      ["A"; "B"]%string (Some "s1"%string) 5 "last_month" initial_state
    = Some (ErrorResponse error "s1" timestamp, s')
    /\ session_history s' = session_history initial_state.
Proof.
  destruct (compose_industry_news 5 config_py svc_search_down "Tesla"
              ["A"; "B"]%string (Some "s1"%string) 5 "last_month"
              initial_state)
    as [[[r | error sid timestamp] s'] |] eqn:Hcompose.
  - vm_compute in Hcompose. discriminate.
  - assert (Hsid : sid = "s1"%string).
    { apply ComposeFacts.compose_inv_error in Hcompose as [-> _].
      reflexivity. }
    subst sid. exists error, timestamp, s'. split; [reflexivity|].
    exact (proj1 (error_envelope_leaves_history _ _ _ _ _ _ _ _ _ _ _ _ _
                    Hcompose)).
  - vm_compute in Hcompose. discriminate.
Defined.

(* ===================================================================== *)
(** ** The chunker with an overlap that is not positive *)
(* ===================================================================== *)

Module WindowFacts.

Import TextProcessing Properties Shapes PyStrFacts.

Lemma remaining_done (len start chunk_size overlap : Z) :
  0 < chunk_size -> overlap <= 0 -> len <= start ->
  remaining len start chunk_size overlap = O.
Proof.
  intros Hsize Hov Hle. unfold remaining, window_count, stride.
  rewrite Z.max_l by lia. rewrite Z.div_small by lia. reflexivity.
Qed.

Lemma remaining_step (len start chunk_size overlap : Z) :
  0 < chunk_size -> overlap <= 0 -> start < len ->
  remaining len start chunk_size overlap
  = S (remaining len (start + stride chunk_size overlap) chunk_size overlap).
Proof.
  intros Hsize Hov Hlt. unfold remaining, window_count, stride.
  set (d := chunk_size - overlap). assert (Hd : 0 < d) by (subst d; lia).
  rewrite (Z.max_r 0 (len - start)) by lia.
  destruct (Z.le_gt_cases (len - start) d) as [Hle | Hgt].
  - rewrite (Z.max_l 0 (len - (start + d))) by lia.
    rewrite (Z.div_small (0 + d - 1) d) by lia.
    replace ((len - start + d - 1) / d) with 1; [reflexivity|].
    apply Z.div_unique with (r := len - start - 1); lia.
  - rewrite (Z.max_r 0 (len - (start + d))) by lia.
    replace (len - start + d - 1) with (len - (start + d) + d - 1 + 1 * d)
      by lia.
    rewrite Z.div_add by lia.
    assert (0 <= (len - (start + d) + d - 1) / d)
      by (apply Z.div_pos; lia).
    lia.
Qed.

(** Clipping the end of the window by hand changes nothing: the slice
    clips by itself. *)
Lemma slice_clipped (text : string) (start chunk_size : Z) :
  0 <= start -> 0 < chunk_size ->
  PyStr.slice text start
    (if start + chunk_size >? PyStr.len text then PyStr.len text
     else start + chunk_size)
  = PyStr.slice text start (start + chunk_size).
Proof.
  intros Hstart Hsize. pose proof (len_nonneg text).
  unfold PyStr.slice, PyStr.adjust_index.
  destruct (Z.gtb_spec (start + chunk_size) (PyStr.len text));
    destruct (Z.ltb_spec start 0); try lia;
    destruct (Z.ltb_spec (start + chunk_size) 0); try lia;
    destruct (Z.ltb_spec (PyStr.len text) 0); try lia;
    f_equal; f_equal; lia.
Qed.

(** The loop from cursor [start]: it ends within [len - start + 1] tests
    and appends the windows that start at [start], [start + stride],
    ... *)
Lemma chunk_loop_windows (text : string) (chunk_size overlap : Z) :
  0 < chunk_size -> overlap <= 0 ->
  forall (fuel : nat) (start : Z) (chunks : list string),
    0 <= start ->
    (Z.to_nat (PyStr.len text - start) < fuel)%nat ->
    chunk_loop fuel text chunk_size overlap start chunks
    = Some (chunks
              ++ map (fun k : nat =>
                        PyStr.slice text
                          (start + Z.of_nat k * stride chunk_size overlap)
                          (start + Z.of_nat k * stride chunk_size overlap
                           + chunk_size))
                     (seq 0 (remaining (PyStr.len text) start chunk_size
                                       overlap))).
Proof.
  intros Hsize Hov.
  induction fuel as [|fuel IH]; intros start chunks Hstart Hfuel; [lia|].
  simpl. unfold chunk_step.
  destruct (Z.ltb_spec start (PyStr.len text)) as [Hlt | Hge].
  - rewrite slice_clipped by lia.
    rewrite (remaining_step _ _ _ _ Hsize Hov Hlt).
    destruct (Z.gtb_spec (start + chunk_size) (PyStr.len text)) as [Hclip | Hfit].
    + rewrite IH by lia.
      rewrite (remaining_done (PyStr.len text) (PyStr.len text - overlap))
        by lia.
      rewrite (remaining_done (PyStr.len text)
                              (start + stride chunk_size overlap))
        by (unfold stride; lia).
      simpl. rewrite <- app_assoc. simpl.
      repeat f_equal; lia.
    + replace (start + chunk_size - overlap)
        with (start + stride chunk_size overlap) by (unfold stride; lia).
      rewrite IH by (unfold stride; lia).
      rewrite <- app_assoc. simpl. rewrite <- seq_shift, map_map.
      f_equal. f_equal. f_equal.
      * f_equal; lia.
      * apply map_ext. intros k. f_equal; lia.
  - rewrite remaining_done by lia. simpl. now rewrite app_nil_r.
Qed.

(** The windows that [window_count] counts start inside the text. *)
Lemma window_starts_inside (len chunk_size overlap : Z) (k : nat) :
  0 < chunk_size -> overlap <= 0 ->
  (k < Z.to_nat (window_count len chunk_size overlap))%nat ->
  Z.of_nat k * stride chunk_size overlap < len.
Proof.
  unfold window_count, stride. intros Hsize Hov Hk.
  set (d := chunk_size - overlap) in *. assert (Hd : 0 < d) by (subst d; lia).
  assert (Hq : Z.of_nat k < (len + d - 1) / d) by lia.
  pose proof (Z.mul_div_le (len + d - 1) d Hd) as Hmul.
  nia.
Qed.

(** A window that is not the last one lies inside the text as a whole. *)
Lemma window_before_last_inside (len chunk_size overlap : Z) (k : nat) :
  0 < chunk_size -> overlap <= 0 ->
  (S k < Z.to_nat (window_count len chunk_size overlap))%nat ->
  Z.of_nat k * stride chunk_size overlap + chunk_size < len.
Proof.
  intros Hsize Hov Hk.
  pose proof (window_starts_inside len chunk_size overlap (S k) Hsize Hov Hk)
    as Hnext.
  unfold stride in *. lia.
Qed.

Lemma len_slice_inside (text : string) (a b : Z) :
  0 <= a -> a <= b ->
  PyStr.len (PyStr.slice text a b)
  = Z.max 0 (Z.min b (PyStr.len text) - Z.min a (PyStr.len text)).
Proof.
  intros Ha Hab. pose proof (len_nonneg text).
  unfold PyStr.slice, PyStr.adjust_index.
  destruct (Z.ltb_spec a 0); [lia|]. destruct (Z.ltb_spec b 0); [lia|].
  unfold PyStr.len in *. rewrite length_take, length_drop. lia.
Qed.

Lemma all_but_last_lookup {A : Type} (P : A -> Prop) (l : list A) :
  (forall (k : nat) (x : A),
      l !! k = Some x -> (S k < length l)%nat -> P x) ->
  all_but_last P l.
Proof.
  induction l as [|x [|y rest] IH]; intros H; simpl; try exact I.
  split.
  - apply (H O x); [reflexivity | simpl; lia].
  - apply IH. intros k z Hz Hk. apply (H (S k) z); [exact Hz | simpl in *; lia].
Qed.

(** With an overlap that is not positive the chunks are the windows. *)
Lemma chunk_text_is_windows (text : string) (chunk_size overlap : Z) :
  0 < chunk_size -> overlap <= 0 ->
  forall fuel, (String.length text < fuel)%nat ->
               chunk_text fuel text chunk_size overlap
               = Some (windows text chunk_size overlap).
Proof.
  intros Hsize Hov fuel Hfuel. unfold chunk_text.
  rewrite (chunk_loop_windows text chunk_size overlap Hsize Hov)
    by (unfold PyStr.len; lia).
  simpl. unfold windows, remaining. f_equal.
  rewrite Z.sub_0_r, Z.max_r by apply len_nonneg.
  apply map_ext. intros k. unfold window. f_equal; lia.
Qed.

Lemma window_count_nonneg (len chunk_size overlap : Z) :
  0 <= len -> 0 < chunk_size -> overlap <= 0 ->
  0 <= window_count len chunk_size overlap.
Proof.
  intros Hlen Hsize Hov. unfold window_count, stride. apply Z.div_pos; lia.
Qed.

End WindowFacts.

Import Shapes.

(** With [chunk_size > 0] and an overlap that is not positive,
    [chunk_text] returns within [len(text) + 1] tests of its loop
    condition, and its [k]-th chunk (from 0) is the window
    [text[k*stride : k*stride + chunk_size]], with
    [stride = chunk_size - overlap]: a negative overlap leaves
    [-overlap] characters out between two chunks. *)
Theorem chunk_text_windows (text : string) (chunk_size overlap : Z) :
  0 < chunk_size -> overlap <= 0 ->
  exists chunks,
    (forall fuel, (String.length text < fuel)%nat ->
                  chunk_text fuel text chunk_size overlap = Some chunks)
    /\ forall (k : nat) (chunk : string),
        chunks !! k = Some chunk ->
        chunk = PyStr.slice text
                  (Z.of_nat k * (chunk_size - overlap))
                  (Z.of_nat k * (chunk_size - overlap) + chunk_size).
Proof.
  intros Hsize Hov. exists (windows text chunk_size overlap). split.
  - now apply WindowFacts.chunk_text_is_windows.
  - intros k chunk Hlookup. unfold windows in Hlookup.
    rewrite list_lookup_fmap in Hlookup.
    destruct (seq 0 _ !! k) as [k'|] eqn:Hseq; [| discriminate].
    apply lookup_seq in Hseq as [-> _]. simpl in Hlookup.
    inversion Hlookup. reflexivity.
Qed.

Lemma chunk_text_windows_abcdefgh :
  0 < 3 /\ -1 <= 0
  /\ exists chunks,
      chunk_text 9 "abcdefgh" 3 (-1) = Some chunks
      /\ chunks !! 1%nat = Some (PyStr.slice "abcdefgh" 4 7).
Proof.
  split; [lia|]. split; [lia|].
  destruct (chunk_text_windows "abcdefgh" 3 (-1)) as (chunks & Hrun & Hshape);
    [lia | lia |].
  exists chunks. split; [apply Hrun; simpl; lia|].
  specialize (Hrun 9%nat ltac:(simpl; lia)).
  vm_compute in Hrun. inversion Hrun. reflexivity.
Defined.

(** For [chunk_size > 0], [chunk_text] returns exactly when the text is
    empty or the overlap is not positive. *)
Theorem chunk_text_returns_iff (text : string) (chunk_size overlap : Z) :
  0 < chunk_size ->
  (exists fuel chunks, chunk_text fuel text chunk_size overlap = Some chunks)
  <-> (text = EmptyString \/ overlap <= 0).
Proof.
  intros Hsize. split.
  - intros (fuel & chunks & Hrun).
    destruct text as [|c text]; [now left | right].
    destruct (Z.le_gt_cases overlap 0) as [Hle | Hgt]; [exact Hle|].
    rewrite (ChunkerFacts.chunk_text_positive_overlap
               (String c text) chunk_size overlap) in Hrun;
      [discriminate | discriminate | lia].
  - intros [-> | Hov].
    + exists 1%nat, []. reflexivity.
    + exists (S (String.length text)), (windows text chunk_size overlap).
      apply WindowFacts.chunk_text_is_windows; [assumption | assumption | lia].
Qed.

Lemma chunk_text_returns_iff_hello :
  0 < 1000
  /\ ~ exists fuel chunks, chunk_text fuel "hello" 1000 200 = Some chunks.
Proof.
  split; [lia|]. intros Hrun.
  apply (proj1 (chunk_text_returns_iff "hello" 1000 200 ltac:(lia))) in Hrun.
  destruct Hrun as [Hempty | Hov]; [discriminate | lia].
Defined.

(** With [chunk_size > 0] and an overlap that is not positive, the
    number of chunks is [len(text) / (chunk_size - overlap)] rounded
    up. *)
Theorem chunk_text_count (text : string) (chunk_size overlap : Z) :
  0 < chunk_size -> overlap <= 0 ->
  exists chunks,
    chunk_text (S (String.length text)) text chunk_size overlap = Some chunks
    /\ Z.of_nat (length chunks)
       = window_count (PyStr.len text) chunk_size overlap.
Proof.
  intros Hsize Hov. exists (windows text chunk_size overlap). split.
  - apply WindowFacts.chunk_text_is_windows; [assumption | assumption | lia].
  - unfold windows. rewrite length_map, length_seq.
    apply Z2Nat.id. apply WindowFacts.window_count_nonneg;
      [apply PyStrFacts.len_nonneg | assumption | assumption].
Qed.

Lemma chunk_text_count_abcdefg :
  0 < 3 /\ 0 <= 0
  /\ exists chunks,
      chunk_text 8 "abcdefg" 3 0 = Some chunks
      /\ Z.of_nat (length chunks) = 3.
Proof.
  split; [lia|]. split; [lia|].
  destruct (chunk_text_count "abcdefg" 3 0) as (chunks & Hrun & Hcount);
    [lia | lia |].
  exists chunks. split; [exact Hrun | exact Hcount].
Defined.

(** With [chunk_size > 0] and an overlap that is not positive, no chunk
    is empty, none is longer than [chunk_size], and every chunk but the
    last one has exactly [chunk_size] characters. *)
Theorem chunk_text_sizes (text : string) (chunk_size overlap : Z) :
  0 < chunk_size -> overlap <= 0 ->
  exists chunks,
    chunk_text (S (String.length text)) text chunk_size overlap = Some chunks
    /\ Forall (fun chunk => 1 <= PyStr.len chunk <= chunk_size) chunks
    /\ all_but_last (fun chunk => PyStr.len chunk = chunk_size) chunks.
Proof.
  intros Hsize Hov. exists (windows text chunk_size overlap). split.
  { apply WindowFacts.chunk_text_is_windows; [assumption | assumption | lia]. }
  assert (Hstride : 0 < stride chunk_size overlap) by (unfold stride; lia).
  split.
  - apply List.Forall_forall. intros chunk Hin. unfold windows in Hin.
    apply in_map_iff in Hin as (k & <- & Hk). apply in_seq in Hk.
    assert (Hstart : Z.of_nat k * stride chunk_size overlap
                     < PyStr.len text)
      by (apply WindowFacts.window_starts_inside; [assumption.. | lia]).
    unfold window. rewrite WindowFacts.len_slice_inside by nia. nia.
  - apply WindowFacts.all_but_last_lookup. intros k chunk Hlookup Hk.
    unfold windows in *. rewrite length_map, length_seq in Hk.
    rewrite list_lookup_fmap in Hlookup.
    rewrite lookup_seq_lt in Hlookup by lia. simpl in Hlookup.
    inversion Hlookup; subst chunk; clear Hlookup.
    assert (Hend : Z.of_nat k * stride chunk_size overlap + chunk_size
                   < PyStr.len text)
      by (now apply WindowFacts.window_before_last_inside).
    unfold window. rewrite WindowFacts.len_slice_inside by nia. nia.
Qed.

Lemma chunk_text_sizes_abcdefg :
  0 < 3 /\ 0 <= 0
  /\ exists chunks,
      chunk_text 8 "abcdefg" 3 0 = Some chunks
      /\ Forall (fun chunk => 1 <= PyStr.len chunk <= 3) chunks
      /\ all_but_last (fun chunk => PyStr.len chunk = 3) chunks.
Proof.
  split; [lia|]. split; [lia|].
  exact (chunk_text_sizes "abcdefg" 3 0 ltac:(lia) ltac:(lia)).
Defined.

(** A text that is not empty and no longer than [chunk_size], cut with an
    overlap that is not positive, is one chunk: the text itself. *)
Theorem chunk_text_short_text (text : string) (chunk_size overlap : Z) :
  0 < PyStr.len text <= chunk_size -> overlap <= 0 ->
  forall fuel, (2 <= fuel)%nat ->
               chunk_text fuel text chunk_size overlap = Some [text].
Proof.
  intros Hlen Hov fuel Hfuel. unfold chunk_text.
  apply (ChunkerFacts.chunk_loop_fuel_mono _ _ _ 2); [exact Hfuel|].
  cbn [chunk_loop]. unfold chunk_step.
  destruct (Z.ltb_spec 0 (PyStr.len text)) as [_ | ?]; [| lia].
  assert (Hstop : (if 0 + chunk_size >? PyStr.len text
                   then PyStr.len text else 0 + chunk_size) = PyStr.len text).
  { destruct (Z.gtb_spec (0 + chunk_size) (PyStr.len text)); lia. }
  rewrite Hstop.
  destruct (Z.ltb_spec (PyStr.len text - overlap) (PyStr.len text)) as [? | _];
    [lia |].
  now rewrite PyStrFacts.slice_whole by lia.
Qed.

Lemma chunk_text_short_text_hello :
  0 < PyStr.len "hello" <= 1000 /\ 0 <= 0
  /\ chunk_text 2 "hello" 1000 0 = Some ["hello"%string].
Proof.
  assert (Hlen : 0 < PyStr.len "hello" <= 1000)
    by (unfold PyStr.len; simpl; lia).
  split; [exact Hlen|]. split; [lia|].
  apply (chunk_text_short_text "hello" 1000 0 Hlen); lia.
Defined.

(* ===================================================================== *)
(** ** [clean_text] *)
(* ===================================================================== *)

Module CleaningFacts.

Import TextCleaning Shapes.

(** Word characters and the punctuation kept are not white space. *)
Lemma content_not_space (c : ascii) :
  is_content c = true -> PyStr.isspace c = false.
Proof.
  destruct c as [[] [] [] [] [] [] [] []]; vm_compute; congruence.
Qed.

Lemma kept_cases (c : ascii) :
  is_kept c = true <-> is_content c = true \/ PyStr.isspace c = true.
Proof.
  unfold is_kept, is_content.
  destruct (is_word c), (PyStr.isspace c), (is_punctuation c); simpl;
    intuition congruence.
Qed.

Lemma space_is_space : PyStr.isspace " "%char = true.
Proof. reflexivity. Qed.

Lemma chars_sub_spaces (P : ascii -> Prop) (in_run : bool) (text : string) :
  P " "%char ->
  Forall (fun c => PyStr.isspace c = false -> P c) (chars text) ->
  Forall P (chars (sub_spaces in_run text)).
Proof.
  intros Hspace. revert in_run.
  induction text as [|c rest IH]; intros in_run Hall; simpl.
  - constructor.
  - inversion Hall as [|? ? Hc Hrest]; subst.
    destruct (PyStr.isspace c) eqn:Hsp.
    + destruct in_run; [now apply IH | constructor; [exact Hspace | now apply IH]].
    + constructor; [now apply Hc | now apply IH].
Qed.

Lemma chars_remove_special (P : ascii -> Prop) (text : string) :
  Forall P (chars text) ->
  Forall (fun c => P c /\ is_kept c = true) (chars (remove_special text)).
Proof.
  induction text as [|c rest IH]; intros Hall; simpl.
  - constructor.
  - inversion Hall; subst. destruct (is_kept c) eqn:Hkept.
    + constructor; [now split | now apply IH].
    + now apply IH.
Qed.

Lemma chars_lstrip (P : ascii -> Prop) (text : string) :
  Forall P (chars text) -> Forall P (chars (lstrip text)).
Proof.
  induction text as [|c rest IH]; intros Hall; simpl; [constructor|].
  destruct (PyStr.isspace c); [| exact Hall].
  inversion Hall; subst. now apply IH.
Qed.

Lemma chars_rstrip (P : ascii -> Prop) (text : string) :
  Forall P (chars text) -> Forall P (chars (rstrip text)).
Proof.
  induction text as [|c rest IH]; intros Hall; simpl; [constructor|].
  inversion Hall as [|? ? Hc Hrest]; subst. specialize (IH Hrest).
  destruct (rstrip rest) as [|c' rest'].
  - destruct (PyStr.isspace c); [constructor | now repeat constructor].
  - now constructor.
Qed.

Lemma first_char_lstrip (text : string) (c : ascii) :
  first_char (lstrip text) = Some c -> PyStr.isspace c = false.
Proof.
  induction text as [|c0 rest IH]; simpl; [discriminate|].
  destruct (PyStr.isspace c0) eqn:Hsp; [exact IH|].
  simpl. intros H. inversion H; subst. exact Hsp.
Qed.

Lemma first_char_rstrip (text : string) (c : ascii) :
  first_char (rstrip text) = Some c -> first_char text = Some c.
Proof.
  destruct text as [|c0 rest]; simpl; [discriminate|].
  destruct (rstrip rest); [destruct (PyStr.isspace c0); [discriminate|] |];
    simpl; auto.
Qed.

Lemma last_char_rstrip (text : string) (c : ascii) :
  last_char (rstrip text) = Some c -> PyStr.isspace c = false.
Proof.
  induction text as [|c0 rest IH]; simpl; [discriminate|].
  destruct (rstrip rest) as [|c1 rest1] eqn:Hrest.
  - destruct (PyStr.isspace c0) eqn:Hsp; simpl; [discriminate|].
    intros H. inversion H; subst. exact Hsp.
  - exact IH.
Qed.

(** Stripping leaves nothing exactly when there is only white space. *)
Lemma rstrip_empty (text : string) :
  rstrip text = EmptyString <-> PyStr.is_blank text = true.
Proof.
  induction text as [|c rest IH]; simpl; [tauto|].
  destruct (rstrip rest) as [|c1 rest1].
  - destruct (PyStr.isspace c); simpl.
    + split; [intros _; now apply IH | reflexivity].
    + split; discriminate.
  - split; [discriminate|]. intros H. apply andb_true_iff in H as [_ H].
    apply IH in H. discriminate.
Qed.

Lemma is_blank_lstrip (text : string) :
  PyStr.is_blank (lstrip text) = PyStr.is_blank text.
Proof.
  induction text as [|c rest IH]; simpl; [reflexivity|].
  destruct (PyStr.isspace c) eqn:Hsp; simpl; [exact IH | now rewrite Hsp].
Qed.

Lemma strip_empty (text : string) :
  strip text = EmptyString <-> PyStr.is_blank text = true.
Proof. unfold strip. rewrite rstrip_empty. now rewrite is_blank_lstrip. Qed.

Lemma is_blank_forall (text : string) :
  PyStr.is_blank text = true
  <-> Forall (fun c => PyStr.isspace c = true) (chars text).
Proof.
  induction text as [|c rest IH]; simpl.
  - split; [constructor | reflexivity].
  - rewrite andb_true_iff, IH. split.
    + intros [Hc Hrest]. now constructor.
    + intros H. now inversion H.
Qed.

Lemma blank_remove_special (text : string) :
  PyStr.is_blank (remove_special text) = true
  <-> Forall (fun c => is_content c = false) (chars text).
Proof.
  induction text as [|c rest IH]; simpl.
  - split; [constructor | reflexivity].
  - destruct (is_kept c) eqn:Hkept; simpl.
    + rewrite andb_true_iff, IH. apply kept_cases in Hkept. split.
      * intros [Hsp Hrest]. constructor; [| exact Hrest].
        destruct (is_content c) eqn:Hcontent; [| reflexivity].
        apply content_not_space in Hcontent. congruence.
      * intros H. inversion H as [|? ? Hc Hrest]; subst.
        split; [| exact Hrest]. destruct Hkept; congruence.
    + rewrite IH. split.
      * intros Hrest. constructor; [| exact Hrest].
        destruct (is_content c) eqn:Hcontent; [| reflexivity].
        assert (is_kept c = true) by (apply kept_cases; now left). congruence.
      * intros H. now inversion H.
Qed.

Lemma content_sub_spaces (in_run : bool) (text : string) :
  Forall (fun c => is_content c = false) (chars (sub_spaces in_run text))
  <-> Forall (fun c => is_content c = false) (chars text).
Proof.
  revert in_run. induction text as [|c rest IH]; intros in_run; simpl.
  - tauto.
  - destruct (PyStr.isspace c) eqn:Hsp.
    + assert (Hc : is_content c = false).
      { destruct (is_content c) eqn:Hcontent; [| reflexivity].
        apply content_not_space in Hcontent. congruence. }
      destruct in_run; simpl; rewrite ?List.Forall_cons_iff, IH;
        intuition (auto; reflexivity).
    + simpl. rewrite !List.Forall_cons_iff, IH. tauto.
Qed.

End CleaningFacts.

Import TextCleaning.

(** Every character of [clean_text(text)] is a word character, a space
    or one of [.,!?-]: tabs, line breaks and every other symbol are
    gone. *)
Theorem clean_text_alphabet (text : string) :
  Forall (fun c => is_content c = true \/ c = " "%char)
         (chars (clean_text text)).
Proof.
  unfold clean_text, strip.
  assert (H1 : Forall (fun c => PyStr.isspace c = true -> c = " "%char)
                      (chars (sub_spaces false text))).
  { apply CleaningFacts.chars_sub_spaces; [reflexivity|].
    apply List.Forall_forall. intros c _ Hc1 Hc2. congruence. }
  apply CleaningFacts.chars_remove_special in H1.
  apply CleaningFacts.chars_lstrip, CleaningFacts.chars_rstrip in H1.
  eapply List.Forall_impl; [| exact H1].
  intros c [Hspace Hkept]. apply CleaningFacts.kept_cases in Hkept.
  destruct Hkept as [Hcontent | Hsp]; [now left | right; now apply Hspace].
Qed.

(** [clean_text(text)] neither starts nor ends with white space. *)
Theorem clean_text_trimmed (text : string) (c : ascii) :
  first_char (clean_text text) = Some c \/ last_char (clean_text text) = Some c ->
  PyStr.isspace c = false.
Proof.
  unfold clean_text, strip. intros [Hfirst | Hlast].
  - apply CleaningFacts.first_char_rstrip in Hfirst.
    eapply CleaningFacts.first_char_lstrip, Hfirst.
  - eapply CleaningFacts.last_char_rstrip, Hlast.
Qed.

Lemma clean_text_trimmed_hello :
  (first_char (clean_text "  Hello, world! ") = Some "H"%char
   \/ last_char (clean_text "  Hello, world! ") = Some "H"%char)
  /\ PyStr.isspace "H" = false.
Proof.
  assert (H : first_char (clean_text "  Hello, world! ") = Some "H"%char
              \/ last_char (clean_text "  Hello, world! ") = Some "H"%char)
    by (left; reflexivity).
  split; [exact H|].
  exact (clean_text_trimmed "  Hello, world! " "H" H).
Defined.

(** [clean_text(text)] is empty exactly when the text holds no word
    character and none of [.,!?-]. *)
Theorem clean_text_empty_iff (text : string) :
  clean_text text = EmptyString
  <-> Forall (fun c => is_content c = false) (chars text).
Proof.
  unfold clean_text.
  rewrite CleaningFacts.strip_empty, CleaningFacts.blank_remove_special.
  apply CleaningFacts.content_sub_spaces.
Qed.

(* ===================================================================== *)
(** ** The ingestion pipeline: the rows it returns *)
(* ===================================================================== *)

Module BatchFacts.

Import NewsAgentPlugin TextProcessing Properties Shapes MonadFacts
       IngestionFacts.

Lemma drew_refl (s : State) : drew 0 s s.
Proof. unfold drew. repeat split; lia. Qed.

Lemma drew_trans (j k : nat) (s s1 s2 : State) :
  drew j s s1 -> drew k s1 s2 -> drew (j + k) s s2.
Proof. unfold drew. intros (? & ? & ? & ?) (? & ? & ? & ?). repeat split; congruence || lia. Qed.

Lemma embedding_of_ok (svc : Services) (chunk : string) (v : Embedding) :
  generate_embeddings_async svc chunk = Ok v -> embedding_of svc chunk = v.
Proof. unfold embedding_of. now intros ->. Qed.

(** The chunk loop, when every embedding call succeeds. *)
Lemma process_chunks_rows (svc : Services) (article : Article)
      (session_id article_id : string) :
  forall chunks processed_data s,
    Forall (embedded svc) chunks ->
    exists s',
      process_chunks svc article session_id article_id chunks processed_data s
      = Some (Ok (processed_data
                    ++ chunk_rows svc article session_id article_id
                                  (uuid_count s) chunks), s')
      /\ drew (length chunks) s s'.
Proof.
  induction chunks as [|chunk rest IH]; intros acc s Hall.
  - exists s. simpl. rewrite app_nil_r. split; [reflexivity | apply drew_refl].
  - inversion Hall as [|? ? [v Hv] Hrest]; subst.
    simpl. unfold mbind at 1, M_bind at 1. unfold generate_unique_id at 1.
    unfold mbind at 1, M_bind at 1. unfold lift at 1. rewrite Hv.
    destruct (IH (acc ++ [row_of_chunk article session_id article_id
                                       (uuid4 svc (uuid_count s)) chunk v])
                 {| uuid_count := S (uuid_count s); clock := clock s;
                    collection := collection s;
                    session_history := session_history s |} Hrest)
      as (s' & Hrun & Hdrew).
    exists s'. split.
    + rewrite Hrun. simpl. rewrite <- app_assoc. simpl.
      now rewrite (embedding_of_ok _ _ _ Hv).
    + unfold drew in *. simpl in *. destruct Hdrew as (? & ? & ? & ?).
      repeat split; congruence || lia.
Qed.

Lemma article_chunks_ingested (fuel : nat) (cfg : Config) (svc : Services)
      (article : Article) (chunks : list string) :
  PyStr.truthy (scrape_article svc (art_url article)) = true ->
  chunk_text fuel (scrape_article svc (art_url article))
             (CHUNK_SIZE cfg) (CHUNK_OVERLAP cfg) = Some chunks ->
  article_chunks fuel cfg svc article = chunks.
Proof. unfold article_chunks. now intros -> ->. Qed.

(** The article loop, when every article is passed over or ingested in
    full. *)
Lemma process_loop_rows (fuel : nat) (cfg : Config) (svc : Services)
      (session_id : string) :
  forall articles processed_data s,
    Forall (ingested fuel cfg svc) articles ->
    exists s',
      process_loop fuel cfg svc articles session_id processed_data s
      = Some (Ok (processed_data
                    ++ batch_rows fuel cfg svc session_id (uuid_count s)
                                  articles), s')
      /\ drew (batch_draws fuel cfg svc articles) s s'.
Proof.
  induction articles as [|article rest IH]; intros acc s Hall.
  - exists s. simpl. rewrite app_nil_r. split; [reflexivity | apply drew_refl].
  - inversion Hall as [|? ? Hhere Hrest]; subst. simpl.
    destruct (PyStr.truthy (scrape_article svc (art_url article))) eqn:Htruthy;
      simpl.
    + destruct Hhere as [Hskip | (chunks & Hchunks & Hembedded)].
      { unfold skipped in Hskip. rewrite Hskip in Htruthy. discriminate. }
      rewrite (article_chunks_ingested _ _ _ _ _ Htruthy Hchunks).
      unfold mbind at 1, M_bind at 1. unfold lift_fuel at 1. rewrite Hchunks.
      unfold mbind at 1, M_bind at 1. unfold generate_unique_id at 1.
      unfold mbind at 1, M_bind at 1.
      destruct (process_chunks_rows svc article session_id
                  (uuid4 svc (uuid_count s)) chunks acc
                  {| uuid_count := S (uuid_count s); clock := clock s;
                     collection := collection s;
                     session_history := session_history s |} Hembedded)
        as (s1 & Hrun1 & Hdrew1).
      simpl in Hrun1. rewrite Hrun1. cbv beta iota.
      destruct (IH (acc ++ chunk_rows svc article session_id
                                      (uuid4 svc (uuid_count s))
                                      (S (uuid_count s)) chunks)
                   s1 Hrest) as (s' & Hrun & Hdrew).
      exists s'. split.
      * rewrite Hrun. rewrite <- app_assoc.
        replace (uuid_count s1) with (S (uuid_count s + length chunks))
          by (destruct Hdrew1 as [-> _]; simpl; lia).
        reflexivity.
      * unfold drew in *. simpl in *.
        destruct Hdrew1 as (? & ? & ? & ?), Hdrew as (? & ? & ? & ?).
        repeat split; congruence || lia.
    + destruct (IH acc s Hrest) as (s' & Hrun & Hdrew).
      exists s'. split; assumption.
Qed.

(** Rows copy the session id. *)
Lemma chunk_rows_session (svc : Services) (article : Article)
      (session_id article_id : string) :
  forall chunks n,
    Forall (fun row => row_session_id row = session_id
                       /\ row_source row = article_source article)
           (chunk_rows svc article session_id article_id n chunks).
Proof.
  induction chunks as [|chunk rest IH]; intros n; simpl; constructor.
  - split; reflexivity.
  - apply IH.
Qed.

Lemma batch_rows_session (fuel : nat) (cfg : Config) (svc : Services)
      (session_id : string) :
  forall articles n,
    Forall (fun row =>
              row_session_id row = session_id
              /\ exists article,
                  In article articles
                  /\ ~ skipped svc article
                  /\ row_source row = article_source article
                  /\ In (row_chunked_text row)
                        (article_chunks fuel cfg svc article))
           (batch_rows fuel cfg svc session_id n articles).
Proof.
  induction articles as [|article rest IH]; intros n; simpl; [constructor|].
  destruct (PyStr.truthy (scrape_article svc (art_url article))) eqn:Htruthy.
  - apply Forall_app. split.
    + assert (Hgen : forall chunks m,
                 Forall (fun chunk => In chunk
                                         (article_chunks fuel cfg svc article))
                        chunks ->
                 Forall (fun row =>
                           row_session_id row = session_id
                           /\ exists article0,
                               In article0 (article :: rest)
                               /\ ~ skipped svc article0
                               /\ row_source row = article_source article0
                               /\ In (row_chunked_text row)
                                     (article_chunks fuel cfg svc article0))
                        (chunk_rows svc article session_id (uuid4 svc n) m
                                    chunks)).
      { induction chunks as [|chunk chunks IHc]; intros m Hin; simpl;
          constructor.
        - inversion Hin; subst. split; [reflexivity|].
          exists article. repeat split; try (now left); try assumption.
          unfold skipped. intros Hempty. rewrite Hempty in Htruthy.
          discriminate.
        - inversion Hin; subst. now apply IHc. }
      apply Hgen. apply List.Forall_forall. auto.
    + eapply List.Forall_impl; [| apply IH].
      intros row (Hsid & article0 & Hin & Hrest).
      split; [exact Hsid|]. exists article0. split; [now right | exact Hrest].
  - eapply List.Forall_impl; [| apply IH].
    intros row (Hsid & article0 & Hin & Hrest).
    split; [exact Hsid|]. exists article0. split; [now right | exact Hrest].
Qed.

Lemma batch_rows_texts (fuel : nat) (cfg : Config) (svc : Services)
      (session_id : string) :
  forall articles n,
    map row_chunked_text (batch_rows fuel cfg svc session_id n articles)
    = flat_map (article_chunks fuel cfg svc) articles.
Proof.
  assert (Hchunks : forall article article_id chunks m,
             map row_chunked_text
                 (chunk_rows svc article session_id article_id m chunks)
             = chunks).
  { intros article article_id.
    induction chunks as [|chunk chunks IH]; intros m; simpl;
      [reflexivity | now rewrite IH]. }
  induction articles as [|article rest IH]; intros n; simpl; [reflexivity|].
  destruct (PyStr.truthy (scrape_article svc (art_url article))) eqn:Htruthy.
  - now rewrite map_app, Hchunks, IH.
  - rewrite IH. unfold article_chunks at 2. rewrite Htruthy.
    now destruct (chunk_text _ _ _ _).
Qed.

End BatchFacts.

Module IdFacts.

Import NewsAgentPlugin TextProcessing Properties Shapes.

Lemma ids_within_weaken (svc : Services) (lo lo' hi hi' : nat) (row : Row) :
  (lo' <= lo)%nat -> (hi <= hi')%nat ->
  ids_within svc lo hi row -> ids_within svc lo' hi' row.
Proof.
  intros Hlo Hhi (i & j & ? & ? & ? & ? & ?). exists i, j.
  repeat split; try assumption; lia.
Qed.

(** The rows of one article: one article id, the article's fields, and
    the chunk identifiers [m], [m + 1], ... *)
Lemma chunk_rows_block (svc : Services) (article : Article)
      (session_id : string) (i : nat) :
  forall chunks m,
    (i < m)%nat ->
    Forall (fun row =>
              row_article_id row = uuid4 svc i
              /\ row_source row = article_source article
              /\ exists j, (m <= j)%nat /\ (j < m + length chunks)%nat
                           /\ row_chunk_id row = uuid4 svc j)
           (chunk_rows svc article session_id (uuid4 svc i) m chunks).
Proof.
  induction chunks as [|chunk rest IH]; intros m Him; simpl; constructor.
  - repeat split. exists m. repeat split; lia.
  - eapply List.Forall_impl; [| apply (IH (S m)); lia].
    intros row (Haid & Hsrc & j & ? & ? & Hj).
    repeat split; try assumption. exists j. repeat split; try assumption; lia.
Qed.

Lemma chunk_rows_nodup (svc : Services) (article : Article)
      (session_id article_id : string) :
  never_repeats svc ->
  forall chunks m,
    NoDup (map row_chunk_id
               (chunk_rows svc article session_id article_id m chunks))
    /\ Forall (fun row => exists j, (m <= j)%nat /\ row_chunk_id row = uuid4 svc j)
              (chunk_rows svc article session_id article_id m chunks).
Proof.
  intros Hinj. induction chunks as [|chunk rest IH]; intros m; simpl.
  - split; constructor.
  - destruct (IH (S m)) as [Hnodup Hall]. split.
    + apply NoDup_cons. split; [| exact Hnodup].
      intros Hin. apply list_elem_of_In, in_map_iff in Hin as (row & Hid & Hrow).
      rewrite List.Forall_forall in Hall.
      destruct (Hall row Hrow) as (j & Hj & Hrowid).
      rewrite Hrowid in Hid. apply Hinj in Hid. lia.
    + constructor; [exists m; split; [lia | reflexivity]|].
      eapply List.Forall_impl; [| exact Hall].
      intros row (j & ? & ?). exists j. split; [lia | assumption].
Qed.

Lemma batch_rows_within (fuel : nat) (cfg : Config) (svc : Services)
      (session_id : string) :
  forall articles n,
    Forall (ids_within svc n (n + batch_draws fuel cfg svc articles))
           (batch_rows fuel cfg svc session_id n articles).
Proof.
  induction articles as [|article rest IH]; intros n; simpl; [constructor|].
  destruct (PyStr.truthy (scrape_article svc (art_url article))).
  - apply Forall_app. split.
    + eapply List.Forall_impl;
        [| apply (chunk_rows_block svc article session_id n
                    (article_chunks fuel cfg svc article) (S n)); lia].
      intros row (Haid & _ & j & ? & ? & Hj). exists n, j.
      repeat split; try assumption; lia.
    + eapply List.Forall_impl; [| apply IH].
      intros row. apply ids_within_weaken; lia.
  - apply IH.
Qed.

(** In the rows of a batch no chunk identifier occurs twice, no chunk
    identifier is an article identifier, and rows with the same article
    identifier come from the same article. *)
Lemma batch_rows_ids (fuel : nat) (cfg : Config) (svc : Services)
      (session_id : string) :
  never_repeats svc ->
  forall articles n,
    NoDup (map row_chunk_id (batch_rows fuel cfg svc session_id n articles))
    /\ (forall r1 r2,
           In r1 (batch_rows fuel cfg svc session_id n articles) ->
           In r2 (batch_rows fuel cfg svc session_id n articles) ->
           row_chunk_id r1 <> row_article_id r2)
    /\ (forall r1 r2,
           In r1 (batch_rows fuel cfg svc session_id n articles) ->
           In r2 (batch_rows fuel cfg svc session_id n articles) ->
           row_article_id r1 = row_article_id r2 ->
           row_source r1 = row_source r2).
Proof.
  intros Hinj. induction articles as [|article rest IH]; intros n; simpl.
  { split; [constructor | split; intros ? ? []]. }
  destruct (PyStr.truthy (scrape_article svc (art_url article)));
    [| apply IH].
  set (chunks := article_chunks fuel cfg svc article).
  set (block := chunk_rows svc article session_id (uuid4 svc n) (S n) chunks).
  set (later := batch_rows fuel cfg svc session_id (S n + length chunks) rest).
  destruct (IH (S n + length chunks)%nat) as (Hnodup & Hdistinct & Hsame).
  fold later in Hnodup, Hdistinct, Hsame.
  assert (Hblock : forall row, In row block ->
            row_article_id row = uuid4 svc n
            /\ row_source row = article_source article
            /\ exists j, (S n <= j)%nat /\ (j < S n + length chunks)%nat
                         /\ row_chunk_id row = uuid4 svc j).
  { apply List.Forall_forall. apply chunk_rows_block. lia. }
  assert (Hlater : forall row, In row later ->
            ids_within svc (S n + length chunks)
                       (S n + length chunks + batch_draws fuel cfg svc rest)
                       row).
  { apply List.Forall_forall. apply batch_rows_within. }
  split; [| split].
  - rewrite map_app. apply NoDup_app. split; [| split].
    + apply (chunk_rows_nodup svc article session_id (uuid4 svc n) Hinj).
    + intros id Hin1 Hin2.
      apply list_elem_of_In, in_map_iff in Hin1 as (r1 & <- & Hr1).
      apply list_elem_of_In, in_map_iff in Hin2 as (r2 & Heq & Hr2).
      destruct (Hblock r1 Hr1) as (_ & _ & j & ? & ? & Hj).
      destruct (Hlater r2 Hr2) as (i' & j' & ? & ? & ? & _ & Hj').
      rewrite Hj, Hj' in Heq. apply Hinj in Heq. lia.
    + exact Hnodup.
  - intros r1 r2 Hr1 Hr2 Heq.
    apply in_app_iff in Hr1 as [Hr1 | Hr1];
      apply in_app_iff in Hr2 as [Hr2 | Hr2].
    + destruct (Hblock r1 Hr1) as (_ & _ & j & ? & ? & Hj).
      destruct (Hblock r2 Hr2) as (Hi & _).
      rewrite Hj, Hi in Heq. apply Hinj in Heq. lia.
    + destruct (Hblock r1 Hr1) as (_ & _ & j & ? & ? & Hj).
      destruct (Hlater r2 Hr2) as (i' & j' & ? & ? & ? & Hi' & _).
      rewrite Hj, Hi' in Heq. apply Hinj in Heq. lia.
    + destruct (Hlater r1 Hr1) as (i' & j' & ? & ? & ? & _ & Hj').
      destruct (Hblock r2 Hr2) as (Hi & _).
      rewrite Hj', Hi in Heq. apply Hinj in Heq. lia.
    + exact (Hdistinct r1 r2 Hr1 Hr2 Heq).
  - intros r1 r2 Hr1 Hr2 Heq.
    apply in_app_iff in Hr1 as [Hr1 | Hr1];
      apply in_app_iff in Hr2 as [Hr2 | Hr2].
    + destruct (Hblock r1 Hr1) as (_ & -> & _).
      destruct (Hblock r2 Hr2) as (_ & -> & _). reflexivity.
    + destruct (Hblock r1 Hr1) as (Hi & _).
      destruct (Hlater r2 Hr2) as (i' & j' & ? & ? & ? & Hi' & _).
      rewrite Hi, Hi' in Heq. apply Hinj in Heq. lia.
    + destruct (Hlater r1 Hr1) as (i' & j' & ? & ? & ? & Hi' & _).
      destruct (Hblock r2 Hr2) as (Hi & _).
      rewrite Hi, Hi' in Heq. apply Hinj in Heq. lia.
    + exact (Hsame r1 r2 Hr1 Hr2 Heq).
Qed.

End IdFacts.

Module DrawFacts.

Import NewsAgentPlugin Properties Shapes MonadFacts BatchFacts.

Lemma only_draws_ret {A : Type} (a : A) : only_draws (mret a).
Proof. intros s r s' H. inversion H; subst. exists O. apply drew_refl. Qed.

Lemma only_draws_lift {A : Type} (o : outcome A) : only_draws (lift o).
Proof. intros s r s' H. inversion H; subst. exists O. apply drew_refl. Qed.

Lemma only_draws_lift_fuel {A : Type} (o : option A) :
  only_draws (lift_fuel o).
Proof.
  intros s r s' H. unfold lift_fuel in H. destruct o; inversion H; subst.
  exists O. apply drew_refl.
Qed.

Lemma only_draws_generate (svc : Services) :
  only_draws (generate_unique_id svc).
Proof.
  intros s r s' H. inversion H; subst. exists 1%nat.
  unfold drew. simpl. repeat split; lia.
Qed.

Lemma only_draws_bind {A B : Type} (m : M A) (k : A -> M B) :
  only_draws m -> (forall a, only_draws (k a)) -> only_draws (m ≫= k).
Proof.
  intros Hm Hk s r s' H.
  destruct (bind_inv _ _ _ _ _ H) as [(a & s1 & H1 & H2) | (e & H1 & _)].
  - destruct (Hm _ _ _ H1) as [j Hj]. destruct (Hk _ _ _ _ H2) as [i Hi].
    exists (j + i)%nat. eapply drew_trans; eassumption.
  - eapply Hm, H1.
Qed.

Lemma only_draws_process_chunks (svc : Services) (article : Article)
      (session_id article_id : string) :
  forall chunks processed_data,
    only_draws (process_chunks svc article session_id article_id chunks
                               processed_data).
Proof.
  induction chunks as [|chunk rest IH]; intros acc; simpl.
  - apply only_draws_ret.
  - apply only_draws_bind; [apply only_draws_generate | intros chunk_id].
    apply only_draws_bind; [apply only_draws_lift | intros embedding].
    apply IH.
Qed.

Lemma only_draws_process_loop (fuel : nat) (cfg : Config) (svc : Services)
      (session_id : string) :
  forall articles processed_data,
    only_draws (process_loop fuel cfg svc articles session_id processed_data).
Proof.
  induction articles as [|article rest IH]; intros acc; simpl.
  - apply only_draws_ret.
  - destruct (negb (PyStr.truthy (scrape_article svc (art_url article)))).
    + apply IH.
    + apply only_draws_bind; [apply only_draws_lift_fuel | intros chunks].
      apply only_draws_bind; [apply only_draws_generate | intros article_id].
      apply only_draws_bind;
        [apply only_draws_process_chunks | intros rows; apply IH].
Qed.

End DrawFacts.

(* ===================================================================== *)
(** ** The ingestion pipeline: further properties *)
(* ===================================================================== *)

(** When every article of the batch is passed over or has its text
    chunked and every chunk embedded, [process_articles] returns one row
    per chunk, for the articles in batch order and their chunks in chunk
    order; every row carries the session id and the link, title,
    snippet, keywords and focus point of the article its chunk comes
    from; and the call draws one identifier per article with text and
    one per chunk and changes nothing else. *)
Theorem process_articles_rows
        (fuel : nat) (cfg : Config) (svc : Services)
        (articles : list Article) (session_id : string) (s : State) :
  Forall (ingested fuel cfg svc) articles ->
  exists rows s',
    process_articles fuel cfg svc articles session_id s = Some (Ok rows, s')
    /\ map row_chunked_text rows
       = flat_map (article_chunks fuel cfg svc) articles
    /\ Forall (fun row =>
                 row_session_id row = session_id
                 /\ exists article,
                     In article articles
                     /\ ~ skipped svc article
                     /\ row_source row = article_source article
                     /\ In (row_chunked_text row)
                           (article_chunks fuel cfg svc article))
              rows
    /\ drew (batch_draws fuel cfg svc articles) s s'.
Proof.
  intros Hall. unfold process_articles.
  destruct (BatchFacts.process_loop_rows fuel cfg svc session_id articles []
              s Hall) as (s' & Hrun & Hdrew).
  simpl in Hrun. eexists _, s'. split; [exact Hrun|].
  split; [apply BatchFacts.batch_rows_texts|].
  split; [apply BatchFacts.batch_rows_session | exact Hdrew].
Qed.

Lemma process_articles_rows_three_articles :
  Forall (ingested 5 config_no_overlap svc_all_ok) three_articles
  /\ exists rows s',
      process_articles 5 config_no_overlap svc_all_ok three_articles "s1"
                       initial_state = Some (Ok rows, s')
      /\ map row_chunked_text rows = ["abc"; "def"; "xyz"]%string
      /\ uuid_count s' = 5%nat.
Proof.
  assert (Hall : Forall (ingested 5 config_no_overlap svc_all_ok)
                        three_articles).
  { unfold three_articles. simpl.
    apply List.Forall_cons.
    { right. exists ["abc"; "def"]%string. split; [reflexivity|].
      repeat apply List.Forall_cons; try apply List.Forall_nil;
        eexists; reflexivity. }
    apply List.Forall_cons; [left; reflexivity|].
    apply List.Forall_cons; [| apply List.Forall_nil].
    right. exists ["xyz"]%string. split; [reflexivity|].
    repeat apply List.Forall_cons; try apply List.Forall_nil;
      eexists; reflexivity. }
  split; [exact Hall|].
  destruct (process_articles_rows 5 config_no_overlap svc_all_ok
              three_articles "s1" initial_state Hall)
    as (rows & s' & Hrun & Htexts & _ & Hdrew).
  exists rows, s'. split; [exact Hrun|]. split; [exact Htexts|].
  destruct Hdrew as [-> _]. reflexivity.
Defined.

(** When the identifier source never repeats itself, the rows
    [process_articles] returns have pairwise different chunk ids, no
    chunk id is the article id of any row, and two rows with the same
    article id come from the same article. *)
Theorem process_articles_ids
        (fuel : nat) (cfg : Config) (svc : Services)
        (articles : list Article) (session_id : string) (s s' : State)
        (rows : list Row) :
  never_repeats svc ->
  process_articles fuel cfg svc articles session_id s = Some (Ok rows, s') ->
  NoDup (map row_chunk_id rows)
  /\ (forall r1 r2, In r1 rows -> In r2 rows ->
                    row_chunk_id r1 <> row_article_id r2)
  /\ (forall r1 r2, In r1 rows -> In r2 rows ->
                    row_article_id r1 = row_article_id r2 ->
                    row_source r1 = row_source r2).
Proof.
  intros Hinj Hrun. unfold process_articles in Hrun.
  pose proof (IngestionFacts.process_loop_ok _ _ _ _ _ _ _ _ _ Hrun) as Hall.
  destruct (BatchFacts.process_loop_rows fuel cfg svc session_id articles []
              s Hall) as (s1 & Hrun1 & _).
  rewrite Hrun in Hrun1. simpl in Hrun1. inversion Hrun1; subst rows.
  now apply IdFacts.batch_rows_ids.
Qed.

(** [process_articles] writes nothing but the count of identifiers
    drawn: however it ends, the collection, the session history and the
    clock are as before. *)
Theorem process_articles_only_draws
        (fuel : nat) (cfg : Config) (svc : Services)
        (articles : list Article) (session_id : string) (s s' : State)
        (r : outcome (list Row)) :
  process_articles fuel cfg svc articles session_id s = Some (r, s') ->
  collection s' = collection s
  /\ session_history s' = session_history s
  /\ clock s' = clock s
  /\ (uuid_count s <= uuid_count s')%nat.
Proof.
  intros Hrun.
  destruct (DrawFacts.only_draws_process_loop fuel cfg svc session_id
              articles [] s r s' Hrun) as (k & Hcount & Hclock & Hcoll & Hhist).
  repeat split; try assumption. lia.
Qed.

(** A batch in which no article has text (every fetch failed or gave an
    empty page) makes [process_articles] return the empty frame, under
    every setting of the chunker, and leaves the state untouched. *)
Theorem process_articles_all_skipped
        (fuel : nat) (cfg : Config) (svc : Services)
        (articles : list Article) (session_id : string) (s : State) :
  Forall (skipped svc) articles ->
  process_articles fuel cfg svc articles session_id s = Some (Ok [], s).
Proof.
  unfold process_articles. generalize (@nil Row) as acc. intros acc Hall.
  induction Hall as [|article rest Hskip _ IH].
  - reflexivity.
  - rewrite IngestionFacts.process_loop_skip by exact Hskip. exact IH.
Qed.

(* ===================================================================== *)
(** ** Storing, searching and retrieving *)
(* ===================================================================== *)

Module StoreFacts.

Import NewsAgentPlugin Properties Shapes MonadFacts.

(** Storing two frames one after the other is storing their
    concatenation. *)
Lemma store_app (svc : Services) (rows1 rows2 : list Row) (s : State) :
  store_in_vector_db svc (rows1 ++ rows2) s
  = match store_in_vector_db svc rows1 s with
    | Some (Ok _, s1) => store_in_vector_db svc rows2 s1
    | other => other
    end.
Proof.
  revert s. induction rows1 as [|row rest IH]; intros s; simpl.
  - reflexivity.
  - unfold mbind, M_bind.
    destruct (add_entry svc (entry_of_row row) s) as [[[[] | e] s1] |];
      [apply IH | reflexivity | reflexivity].
Qed.

Lemma store_appends_from (svc : Services) :
  append_only svc ->
  forall rows s,
    exists s',
      store_in_vector_db svc rows s = Some (Ok tt, s')
      /\ collection s' = collection s ++ map entry_of_row rows
      /\ uuid_count s' = uuid_count s
      /\ clock s' = clock s
      /\ session_history s' = session_history s.
Proof.
  intros Happend. induction rows as [|row rest IH]; intros s; simpl.
  - exists s. rewrite app_nil_r. repeat split.
  - unfold mbind, M_bind, add_entry. rewrite Happend.
    destruct (IH {| uuid_count := uuid_count s; clock := clock s;
                    collection := collection s ++ [entry_of_row row];
                    session_history := session_history s |})
      as (s' & Hrun & Hcoll & Hcount & Hclock & Hhist).
    exists s'. simpl in *. rewrite Hrun, Hcoll, <- app_assoc.
    repeat split; assumption.
Qed.

(** Every article the fetch loop adds is tagged with one of the items. *)
Lemma fetch_loop_tags (svc : Services) (industry : json)
      (all_items : list (string * json)) :
  forall items articles result,
    (forall item, In item items -> In item all_items) ->
    Forall (fun a => In (art_focus_point a, art_keywords a) all_items)
           articles ->
    fetch_loop svc industry items articles = Ok result ->
    Forall (fun a => In (art_focus_point a, art_keywords a) all_items) result.
Proof.
  induction items as [|[focus_point keyword_list] rest IH];
    intros articles result Hsub Hall Hrun; simpl in Hrun.
  - inversion Hrun; subst. exact Hall.
  - destruct (serp_search svc industry keyword_list) as [[hits|] | e];
      [| | discriminate].
    + eapply IH; [| | exact Hrun].
      * intros item Hin. apply Hsub. now right.
      * apply Forall_app. split; [exact Hall|].
        apply List.Forall_forall. intros a Hin.
        apply in_map_iff in Hin as (hit & <- & _). simpl.
        apply Hsub. now left.
    + eapply IH; [| exact Hall | exact Hrun].
      intros item Hin. apply Hsub. now right.
Qed.

(** One search that raises makes the fetch loop raise. *)
Lemma fetch_loop_failure (svc : Services) (industry : json) :
  forall items articles,
    Exists (search_fails svc industry) items ->
    exists e, fetch_loop svc industry items articles = Raise e.
Proof.
  induction items as [|[focus_point keyword_list] rest IH];
    intros articles Hex; simpl.
  - inversion Hex.
  - destruct (serp_search svc industry keyword_list) as [[hits|] | e] eqn:Hs.
    + apply IH. inversion Hex as [? ? [e He] | ? ? Hlater]; subst;
        [simpl in He; congruence | exact Hlater].
    + apply IH. inversion Hex as [? ? [e He] | ? ? Hlater]; subst;
        [simpl in He; congruence | exact Hlater].
    + now exists e.
Qed.

Lemma zip_results_length (docs : list string) (metas : list Metadata)
      (dists : list float) :
  length (zip_results docs metas dists)
  = Nat.min (length docs) (Nat.min (length metas) (length dists)).
Proof.
  revert metas dists. induction docs as [|doc docs IH]; intros metas dists.
  - reflexivity.
  - destruct metas as [|meta metas], dists as [|dist dists]; simpl;
      try reflexivity.
    now rewrite IH.
Qed.

Lemma zip_results_prefix (docs : list string) (metas : list Metadata)
      (dists : list float) :
  map ret_text (zip_results docs metas dists)
  = firstn (length (zip_results docs metas dists)) docs
  /\ map ret_metadata (zip_results docs metas dists)
     = firstn (length (zip_results docs metas dists)) metas
  /\ map ret_distance (zip_results docs metas dists)
     = firstn (length (zip_results docs metas dists)) dists.
Proof.
  revert metas dists. induction docs as [|doc docs IH]; intros metas dists.
  - repeat split.
  - destruct metas as [|meta metas], dists as [|dist dists]; simpl;
      try (repeat split; reflexivity).
    destruct (IH metas dists) as (-> & -> & ->). repeat split.
Qed.

End StoreFacts.

Import Shapes.

(** [store_in_vector_db] stops at the first [collection.add] that
    raises: the rows before it stay stored, the failing row and the rows
    after it are not, and nothing is rolled back. *)
Theorem store_stops_at_first_failure
        (svc : Services) (stored : list Row) (row : Row) (later : list Row)
        (s s1 : State) (e : exn) :
  store_in_vector_db svc stored s = Some (Ok tt, s1) ->
  collection_add svc (collection s1) (entry_of_row row) = Raise e ->
  store_in_vector_db svc (stored ++ row :: later) s = Some (Raise e, s1).
Proof.
  intros Hstored Hadd.
  rewrite StoreFacts.store_app, Hstored. simpl.
  unfold mbind, M_bind, add_entry. now rewrite Hadd.
Qed.

(** With a collection that appends what it is given,
    [store_in_vector_db] adds one entry per row, in row order, after the
    entries already there; the entry of a row has the row's chunk id as
    id and its chunk text as document. *)
Theorem store_appends_rows (svc : Services) (df : list Row) (s : State) :
  append_only svc ->
  exists s',
    store_in_vector_db svc df s = Some (Ok tt, s')
    /\ collection s' = collection s ++ map entry_of_row df
    /\ map entry_id (map entry_of_row df) = map row_chunk_id df
    /\ map entry_document (map entry_of_row df) = map row_chunked_text df.
Proof.
  intros Happend.
  destruct (StoreFacts.store_appends_from svc Happend df s)
    as (s' & Hrun & Hcoll & _).
  exists s'. split; [exact Hrun|]. split; [exact Hcoll|].
  rewrite !map_map. split; reflexivity.
Qed.

(** Ingesting then storing: when every article of the batch is passed
    over or ingested in full and the collection appends, the collection
    gains exactly the chunks of the articles that have text, in order,
    each filed under the session id. *)
Theorem ingest_then_store
        (fuel : nat) (cfg : Config) (svc : Services)
        (articles : list Article) (session_id : string) (s : State) :
  Forall (ingested fuel cfg svc) articles ->
  append_only svc ->
  exists rows s1 s2 added,
    process_articles fuel cfg svc articles session_id s = Some (Ok rows, s1)
    /\ store_in_vector_db svc rows s1 = Some (Ok tt, s2)
    /\ collection s2 = collection s ++ added
    /\ map entry_document added
       = flat_map (article_chunks fuel cfg svc) articles
    /\ Forall (fun e => meta_session_id (entry_metadata e) = session_id)
              added.
Proof.
  intros Hall Happend. unfold process_articles.
  destruct (BatchFacts.process_loop_rows fuel cfg svc session_id articles []
              s Hall) as (s1 & Hrun & Hdrew).
  simpl in Hrun.
  set (rows := batch_rows fuel cfg svc session_id (uuid_count s) articles)
    in *.
  destruct (StoreFacts.store_appends_from svc Happend rows s1)
    as (s2 & Hstore & Hcoll & _).
  exists rows, s1, s2, (map entry_of_row rows).
  split; [exact Hrun|]. split; [exact Hstore|].
  split; [rewrite Hcoll; now destruct Hdrew as (_ & _ & -> & _)|].
  split.
  - rewrite map_map. apply BatchFacts.batch_rows_texts.
  - apply List.Forall_forall. intros entry Hin.
    apply in_map_iff in Hin as (row & <- & Hrow). simpl.
    pose proof (BatchFacts.batch_rows_session fuel cfg svc session_id
                  articles (uuid_count s)) as Hrows.
    rewrite List.Forall_forall in Hrows. now destruct (Hrows row Hrow).
Qed.

(** Every article [fetch_industry_news] returns is tagged with a focus
    point that is a key of the keywords dict and carries the keyword
    list stored under that key; keywords that are not a dict make the
    call raise. *)
Theorem fetch_industry_news_tags
        (svc : Services) (industry keywords : json) (articles : list Article) :
  fetch_industry_news svc industry keywords = Ok articles ->
  exists items,
    keywords = JDict items
    /\ Forall (fun a => In (art_focus_point a, art_keywords a) items)
              articles.
Proof.
  unfold fetch_industry_news.
  destruct keywords as [| | | | | |items]; simpl; try discriminate.
  intros Hrun. exists items. split; [reflexivity|].
  eapply StoreFacts.fetch_loop_tags; [| | exact Hrun]; auto.
Qed.

(** A search that raises for one focus point makes
    [fetch_industry_news] raise: the articles found for the other focus
    points are not returned. *)
Theorem fetch_industry_news_search_failure
        (svc : Services) (industry : json) (items : list (string * json)) :
  Exists (search_fails svc industry) items ->
  exists e, fetch_industry_news svc industry (JDict items) = Raise e.
Proof.
  intros Hex. unfold fetch_industry_news. simpl.
  now apply StoreFacts.fetch_loop_failure.
Qed.

(** [retrieve_from_vector_db] pairs the documents, metadatas and
    distances of the first answer position by position and stops at the
    shortest of the three lists: the results are as many as the shortest
    list is long and keep the order of the answer. *)
Theorem retrieve_zips_answer
        (svc : Services) (entries : list Entry) (query : string)
        (n_results : Z) (results : list Retrieved) :
  retrieve_from_vector_db svc entries query n_results = Ok results ->
  exists query_embedding answer docs metas dists,
    generate_embeddings svc query = Ok query_embedding
    /\ collection_query svc entries [query_embedding] n_results = Ok answer
    /\ first_item (qr_documents answer) = Ok docs
    /\ first_item (qr_metadatas answer) = Ok metas
    /\ first_item (qr_distances answer) = Ok dists
    /\ length results
       = Nat.min (length docs) (Nat.min (length metas) (length dists))
    /\ map ret_text results = firstn (length results) docs
    /\ map ret_metadata results = firstn (length results) metas
    /\ map ret_distance results = firstn (length results) dists.
Proof.
  unfold retrieve_from_vector_db.
  destruct (generate_embeddings svc query) as [v | ?] eqn:Hembed;
    [| discriminate].
  destruct (collection_query svc entries [v] n_results) as [answer | ?]
    eqn:Hanswer; [| discriminate].
  destruct (first_item (qr_documents answer)) as [docs | ?] eqn:Hdocs;
    [| discriminate].
  destruct (first_item (qr_metadatas answer)) as [metas | ?] eqn:Hmetas;
    [| discriminate].
  destruct (first_item (qr_distances answer)) as [dists | ?] eqn:Hdists;
    [| discriminate].
  intros H. inversion H; subst results.
  exists v, answer, docs, metas, dists.
  destruct (StoreFacts.zip_results_prefix docs metas dists) as (Ht & Hm & Hd).
  repeat split; try assumption; try reflexivity.
  apply StoreFacts.zip_results_length.
Qed.

(* ===================================================================== *)
(** ** The orchestrator: further properties *)
(* ===================================================================== *)

Module OrchestratorFacts.

Import NewsAgentPlugin ControlAgent TextProcessing Properties Shapes
       MonadFacts IngestionFacts ControlFacts ComposeFacts PyStrFacts.

Lemma length_append (s1 s2 : string) :
  String.length (s1 +:+ s2) = (String.length s1 + String.length s2)%nat.
Proof.
  induction s1 as [|c s1 IH]; [reflexivity|].
  change (S (String.length (s1 +:+ s2))
          = S (String.length s1 + String.length s2)).
  now rewrite IH.
Qed.

(** [text[:200]] is the first 200 characters of the text. *)
Lemma slice_to_200 (text : string) :
  PyStr.slice_to text 200 = PyStr.take 200 text.
Proof.
  unfold PyStr.slice_to, PyStr.slice, PyStr.adjust_index.
  pose proof (len_nonneg text) as Hlen.
  destruct (Z.ltb_spec 0 0); [lia|]. destruct (Z.ltb_spec 200 0); [lia|].
  rewrite (Z.min_l 0 (PyStr.len text)) by lia.
  change (Z.to_nat 0) with O. cbn [PyStr.drop].
  destruct (Z.le_gt_cases 200 (PyStr.len text)) as [Hlong | Hshort].
  - now rewrite Z.min_l by lia.
  - rewrite Z.min_r by lia. rewrite !take_all; unfold PyStr.len in *;
      [reflexivity | lia | lia].
Qed.

(** The preview of a result: its first 200 characters and three dots. *)
Lemma len_text_snippet (result : Retrieved) :
  PyStr.len (as_text_snippet (article_summary result))
  = Z.min (PyStr.len (ret_text result)) 200 + 3.
Proof.
  unfold article_summary, as_text_snippet, PyStr.slice_to.
  pose proof (len_nonneg (ret_text result)).
  unfold PyStr.len in *. rewrite length_append.
  unfold PyStr.slice, PyStr.adjust_index, PyStr.len.
  destruct (Z.ltb_spec 0 0); [lia|]. destruct (Z.ltb_spec 200 0); [lia|].
  rewrite length_take, length_drop. simpl String.length. lia.
Qed.

(** A run of the [try] body that reaches its [return] has written the
    history once, under the session id, on top of the history it
    found. *)
Lemma compose_body_history (fuel : nat) (cfg : Config) (svc : Services)
      (company_name : string) (focus_points : list string)
      (session_id : string) (max_results : Z) (time_period : string)
      (s0 s1 : State) (r : ComposedResults) :
  compose_body fuel cfg svc company_name focus_points session_id max_results
               time_period s0 = Some (Ok r, s1) ->
  exists timestamp,
    session_history s1
    = <[session_id :=
          {| sr_timestamp := timestamp; sr_company := company_name;
             sr_industry := cr_industry r;
             sr_focus_points := focus_points |}]> (session_history s0)
    /\ cr_company r = company_name
    /\ cr_focus_points r = focus_points
    /\ cr_session_id r = session_id.
Proof.
  intros Hbody.
  apply compose_body_ok in Hbody
    as (kr & ind & kw & arts & rows & sa & sb & news
        & _ & _ & _ & _ & Hrows & Hstore & _ & -> & _ & Hhist).
  apply keeps_history_process_loop in Hrows.
  apply keeps_history_store in Hstore.
  eexists. split; [| repeat split].
  rewrite Hhist, Hstore, Hrows. reflexivity.
Qed.

Lemma store_total (svc : Services) :
  forall rows s, exists r s', store_in_vector_db svc rows s = Some (r, s').
Proof.
  induction rows as [|row rest IH]; intros s; simpl.
  - eexists _, _; reflexivity.
  - unfold mbind, M_bind, add_entry.
    destruct (collection_add svc (collection s) (entry_of_row row)).
    + apply IH.
    + eexists _, _; reflexivity.
Qed.

Lemma process_chunks_total (svc : Services) (article : Article)
      (session_id article_id : string) :
  forall chunks processed_data s,
    exists r s',
      process_chunks svc article session_id article_id chunks processed_data s
      = Some (r, s').
Proof.
  induction chunks as [|chunk rest IH]; intros acc s; simpl.
  - eexists _, _; reflexivity.
  - unfold mbind, M_bind, generate_unique_id, lift.
    destruct (generate_embeddings_async svc chunk).
    + apply IH.
    + eexists _, _; reflexivity.
Qed.

(** With a chunker that returns, the article loop comes back once the
    fuel exceeds the length of every text. *)
Lemma process_loop_total (fuel : nat) (cfg : Config) (svc : Services)
      (session_id : string) :
  0 < CHUNK_SIZE cfg -> CHUNK_OVERLAP cfg <= 0 ->
  forall articles processed_data s,
    (longest_text svc articles < fuel)%nat ->
    exists r s',
      process_loop fuel cfg svc articles session_id processed_data s
      = Some (r, s').
Proof.
  intros Hsize Hov.
  induction articles as [|article rest IH]; intros acc s Hfuel; simpl.
  - eexists _, _; reflexivity.
  - simpl in Hfuel.
    destruct (negb (PyStr.truthy (scrape_article svc (art_url article)))).
    + apply IH. lia.
    + unfold mbind at 1, M_bind at 1. unfold lift_fuel at 1.
      rewrite (WindowFacts.chunk_text_is_windows _ _ _ Hsize Hov) by lia.
      unfold mbind at 1, M_bind at 1. unfold generate_unique_id at 1.
      unfold mbind at 1, M_bind at 1.
      match goal with
      | |- context [process_chunks ?v ?a ?sid ?aid ?c ?p ?st] =>
          destruct (process_chunks_total v a sid aid c p st)
            as ([rows | e] & s1 & ->)
      end.
      * apply IH. lia.
      * eexists _, _; reflexivity.
Qed.

End OrchestratorFacts.

Module TerminationFacts.

Import NewsAgentPlugin ControlAgent TextProcessing Properties Shapes
       MonadFacts ControlFacts OrchestratorFacts.

(** With a chunker that returns, the [try] body comes back once the fuel
    exceeds the length of every text fetched. *)
Lemma compose_body_total (cfg : Config) (svc : Services)
      (company_name : string) (focus_points : list string)
      (session_id : string) (max_results : Z) (time_period : string)
      (s0 : State) :
  0 < CHUNK_SIZE cfg -> CHUNK_OVERLAP cfg <= 0 ->
  exists fuel0 : nat,
    forall fuel, (fuel0 <= fuel)%nat ->
      exists r s1,
        compose_body fuel cfg svc company_name focus_points session_id
                     max_results time_period s0 = Some (r, s1).
Proof.
  intros Hsize Hov. unfold compose_body.
  destruct (extract_search_keywords svc company_name focus_points)
    as [kr | e]; [| exists O; intros; eexists _, _; reflexivity].
  unfold mbind at 1, M_bind at 1, lift at 1. cbv beta iota.
  destruct (getitem kr "industry") as [industry | e];
    [| exists O; intros; eexists _, _; reflexivity].
  unfold mbind at 1, M_bind at 1, lift at 1. cbv beta iota.
  destruct (getitem kr "keywords") as [keywords | e];
    [| exists O; intros; eexists _, _; reflexivity].
  unfold mbind at 1, M_bind at 1, lift at 1. cbv beta iota.
  destruct (fetch_industry_news svc industry keywords) as [articles | e];
    [| exists O; intros; eexists _, _; reflexivity].
  unfold mbind at 1, M_bind at 1, lift at 1. cbv beta iota.
  exists (S (longest_text svc articles)). intros fuel Hfuel.
  unfold mbind at 1, M_bind at 1, process_articles.
  destruct (process_loop_total fuel cfg svc session_id Hsize Hov articles []
              s0 ltac:(lia)) as ([rows | e] & sa & ->);
    [| eexists _, _; reflexivity].
  unfold mbind at 1, M_bind at 1.
  destruct (store_total svc rows sa) as ([[] | e] & sb & ->);
    [| eexists _, _; reflexivity].
  unfold mbind at 1, M_bind at 1, lift at 1.
  unfold mbind at 1, M_bind at 1, read_clock at 1.
  cbv beta iota delta [now].
  unfold mbind at 1, M_bind at 1.
  match goal with
  | |- context [summary_loop ?v ?c ?t ?m ?f ?a ?st] =>
      destruct (summary_loop_total v c t m f a st) as ([news | e] & ->)
  end; eexists _, _; reflexivity.
Qed.

End TerminationFacts.

Import Shapes.

(** A call that returns a composed report has recorded the session: the
    history holds, under the report's session id, the company, the
    report's industry and the focus points of the call. *)
Theorem compose_records_session
        (fuel : nat) (cfg : Config) (svc : Services)
        (company_name : string) (focus_points : list string)
        (session_id : option string) (max_results : Z)
        (time_period : string) (s s' : State) (r : ComposedResults) :
  compose_industry_news fuel cfg svc company_name focus_points session_id
                        max_results time_period s = Some (Composed r, s') ->
  exists timestamp,
    get_session_history (cr_session_id r) s'
    = Some {| sr_timestamp := timestamp; sr_company := company_name;
              sr_industry := cr_industry r;
              sr_focus_points := focus_points |}.
Proof.
  intros Hcompose.
  apply ComposeFacts.compose_inv_composed in Hcompose.
  apply OrchestratorFacts.compose_body_history in Hcompose
    as (timestamp & Hhist & _ & _ & Hsid).
  exists timestamp. unfold get_session_history.
  rewrite Hhist, Hsid. apply lookup_insert_eq.
Qed.

(** However a call ends, the history entries of every other session id
    are as they were: a call touches no entry but the one of its own
    session. *)
Theorem compose_keeps_other_sessions
        (fuel : nat) (cfg : Config) (svc : Services)
        (company_name : string) (focus_points : list string)
        (session_id : option string) (max_results : Z)
        (time_period : string) (s s' : State) (response : Response)
        (other : string) :
  compose_industry_news fuel cfg svc company_name focus_points session_id
                        max_results time_period s = Some (response, s') ->
  other <> response_session_id response ->
  get_session_history other s' = get_session_history other s.
Proof.
  intros Hcompose Hother. unfold get_session_history.
  destruct (ComposeFacts.resolve_session_id_state svc session_id s)
    as [_ Hresolve].
  destruct response as [r | error sid timestamp]; simpl in Hother.
  - apply ComposeFacts.compose_inv_composed in Hcompose.
    apply OrchestratorFacts.compose_body_history in Hcompose
      as (timestamp & Hhist & _ & _ & Hsid).
    rewrite Hhist, Hresolve. apply lookup_insert_ne. congruence.
  - apply ComposeFacts.compose_inv_error in Hcompose
      as (_ & e & s1 & Hbody & _ & _ & ->).
    apply ControlFacts.compose_body_raise_history in Hbody.
    simpl. now rewrite Hbody, Hresolve.
Qed.

(** Both kinds of response carry the session id in use: the caller's
    when one is given, and otherwise ["session_"] followed by the clock
    reading taken at the start of the call; a composed report also
    repeats the company and the focus points of the call. *)
Theorem compose_session_id
        (fuel : nat) (cfg : Config) (svc : Services)
        (company_name : string) (focus_points : list string)
        (session_id : option string) (max_results : Z)
        (time_period : string) (s s' : State) (response : Response) :
  compose_industry_news fuel cfg svc company_name focus_points session_id
                        max_results time_period s = Some (response, s') ->
  response_session_id response
  = match session_id with
    | Some sid => sid
    | None => "session_" +:+ now_strftime svc (clock s)
    end
  /\ match response with
     | Composed r =>
         cr_company r = company_name /\ cr_focus_points r = focus_points
     | ErrorResponse _ _ _ => True
     end.
Proof.
  intros Hcompose.
  assert (Hsid : fst (resolve_session_id svc session_id s)
                 = match session_id with
                   | Some sid => sid
                   | None => "session_" +:+ now_strftime svc (clock s)
                   end)
    by (destruct session_id; reflexivity).
  destruct response as [r | error sid timestamp]; simpl.
  - apply ComposeFacts.compose_inv_composed in Hcompose.
    apply OrchestratorFacts.compose_body_history in Hcompose
      as (timestamp & _ & Hcompany & Hfocus & Hr).
    rewrite Hr, Hsid. repeat split; assumption.
  - apply ComposeFacts.compose_inv_error in Hcompose as [-> _].
    split; [exact Hsid | exact I].
Qed.

(** In a composed report there is one block per focus point, in order,
    and the block of a focus point holds one summary per result of that
    focus point's retrieval, in order; the text preview of a summary is
    the first 200 characters of its result's text followed by three
    dots, so between 3 and 203 characters. *)
Theorem compose_previews
        (fuel : nat) (cfg : Config) (svc : Services)
        (company_name : string) (focus_points : list string)
        (session_id : option string) (max_results : Z)
        (time_period : string) (s s' : State) (r : ComposedResults) :
  compose_industry_news fuel cfg svc company_name focus_points session_id
                        max_results time_period s = Some (Composed r, s') ->
  Forall2 (previewed_block svc (collection s') company_name time_period
                           max_results)
          focus_points (cr_news_summary r).
Proof.
  intros Hcompose.
  apply ComposeFacts.compose_inv_composed in Hcompose.
  apply ControlFacts.compose_body_ok in Hcompose
    as (kr & ind & kw & arts & rows & sa & sb & news
        & _ & _ & _ & _ & _ & _ & Hloop & -> & Hcoll & _).
  apply ControlFacts.summary_loop_ok in Hloop as (blocks & -> & Hblocks).
  simpl in *. rewrite Hcoll. clear Hcoll.
  induction Hblocks as [|fp block fps blocks [Hfp (results & Hret & Harts)] _ IH];
    constructor; [| exact IH].
  split; [exact Hfp|]. exists results. split; [exact Hret|].
  rewrite Harts. clear.
  induction results as [|result results IH]; simpl; constructor; [| exact IH].
  split.
  - simpl. now rewrite OrchestratorFacts.slice_to_200.
  - rewrite OrchestratorFacts.len_text_snippet.
    pose proof (PyStrFacts.len_nonneg (ret_text result)). lia.
Qed.

(** A completion that parses as JSON but has no ["industry"] entry (or
    is no dict at all) ends the call with the error envelope before
    anything is searched: the collection and the history are as they
    were.  Text that does not parse at all does not end the call. *)
Theorem compose_wrong_shape
        (fuel : nat) (cfg : Config) (svc : Services)
        (company_name : string) (focus_points : list string)
        (session_id : option string) (max_results : Z)
        (time_period : string) (s : State) (text : string) (v : json)
        (e : exn) :
  run_async svc company_name focus_points = Ok (Some text) ->
  PyStr.is_blank text = false ->
  json_loads svc text = Ok v ->
  getitem v "industry" = Raise e ->
  exists sid timestamp s',
    compose_industry_news fuel cfg svc company_name focus_points session_id
                          max_results time_period s
    = Some (ErrorResponse (str_of_exn e) sid timestamp, s')
    /\ collection s' = collection s
    /\ session_history s' = session_history s.
Proof.
  intros Hrun Hblank Hloads Hindustry.
  assert (Hextract : extract_search_keywords svc company_name focus_points
                     = Ok v).
  { unfold extract_search_keywords, parse_llm_output. rewrite Hrun.
    destruct text as [|c text]; [discriminate|].
    simpl PyStr.truthy. simpl negb. rewrite Hblank. simpl.
    now rewrite Hloads. }
  destruct (ComposeFacts.resolve_session_id_state svc session_id s)
    as [Hcoll Hhist].
  unfold compose_industry_news.
  destruct (resolve_session_id svc session_id s) as [sid s0]. simpl in *.
  unfold compose_body. rewrite Hextract.
  unfold mbind at 1, M_bind at 1, lift at 1.
  unfold mbind at 1, M_bind at 1, lift at 1. rewrite Hindustry.
  eexists _, _, _. split; [reflexivity|]. simpl. split; assumption.
Qed.

(** With a chunk size above zero and an overlap setting that is not
    positive, [compose_industry_news] always comes back: past an amount of
    fuel that depends on the texts fetched, it returns a response. *)
Theorem compose_returns_without_overlap
        (cfg : Config) (svc : Services)
        (company_name : string) (focus_points : list string)
        (session_id : option string) (max_results : Z)
        (time_period : string) (s : State) :
  0 < CHUNK_SIZE cfg -> CHUNK_OVERLAP cfg <= 0 ->
  exists fuel0 : nat,
    forall fuel, (fuel0 <= fuel)%nat ->
      exists response s',
        compose_industry_news fuel cfg svc company_name focus_points
                              session_id max_results time_period s
        = Some (response, s').
Proof.
  intros Hsize Hov. unfold compose_industry_news.
  destruct (resolve_session_id svc session_id s) as [sid s0].
  destruct (TerminationFacts.compose_body_total cfg svc company_name
              focus_points sid max_results time_period s0 Hsize Hov)
    as [fuel0 Htotal].
  exists fuel0. intros fuel Hfuel.
  destruct (Htotal fuel Hfuel) as ([r | e] & s1 & ->);
    eexists _, _; reflexivity.
Qed.

(* ===================================================================== *)
(** ** Skipped pages and the environment check *)
(* ===================================================================== *)

Import Main MoreScenarios.

(** With [clean_text] as the cleaner, an article is passed over exactly
    when its page cannot be fetched or the page holds no word character
    and none of [.,!?-]. *)
Theorem article_skipped_iff (svc : Services) (article : Article) :
  re_clean svc = clean_text ->
  skipped svc article
  <-> ((exists e, http_get_text svc (art_url article) = Raise e)
       \/ exists page,
           http_get_text svc (art_url article) = Ok page
           /\ Forall (fun c => is_content c = false) (chars page)).
Proof.
  intros Hclean. unfold skipped, scrape_article. rewrite Hclean.
  destruct (http_get_text svc (art_url article)) as [page | e].
  - unfold clean_text.
    rewrite CleaningFacts.strip_empty, CleaningFacts.blank_remove_special,
      CleaningFacts.content_sub_spaces.
    split.
    + intros Hall. right. now exists page.
    + intros [[e He] | (page' & Hpage & Hall)]; [discriminate|].
      now inversion Hpage; subst.
  - split; [intros _; left; now exists e | reflexivity].
Qed.

Lemma article_skipped_iff_symbols :
  re_clean svc_symbols = clean_text
  /\ skipped svc_symbols (article_of_hit "A" (JList []) (hit "u1")).
Proof.
  split; [reflexivity|].
  apply (article_skipped_iff svc_symbols
           (article_of_hit "A" (JList []) (hit "u1")) eq_refl).
  right. exists " @@ ## $$ "%string. split; [reflexivity|].
  repeat apply List.Forall_cons; try apply List.Forall_nil; reflexivity.
Defined.

(** [check_environment] answers [True] exactly when both keys are set
    to a string that is not empty: a key set to the empty string counts
    as missing. *)
Theorem check_environment_iff (env : gmap string string) :
  check_environment env = true
  <-> ((exists key, env !! "GOOGLE_API_KEY"%string = Some key
                    /\ key <> EmptyString)
       /\ (exists key, env !! "SERPAPI_API_KEY"%string = Some key
                       /\ key <> EmptyString)).
Proof.
  unfold check_environment, missing_vars, required_vars. simpl.
  destruct (env !! "GOOGLE_API_KEY"%string) as [[|c1 k1] |];
    destruct (env !! "SERPAPI_API_KEY"%string) as [[|c2 k2] |]; simpl;
    split; try discriminate;
    try (intros [(? & H1 & ?) (? & H2 & ?)]; congruence).
  intros _. split; eexists; split; try reflexivity; discriminate.
Qed.

(* ===================================================================== *)
(** ** The further properties on concrete runs *)
(* ===================================================================== *)

Module ScenarioFacts.

Import MoreScenarios.

Lemma tally_never_repeats : never_repeats svc_tally.
Proof.
  unfold never_repeats. simpl. induction i as [|i IH]; intros [|j] H;
    try discriminate; [reflexivity|].
  f_equal. apply IH. now inversion H.
Qed.

Lemma svc_all_ok_append_only : append_only svc_all_ok.
Proof. intros entries e. reflexivity. Qed.

End ScenarioFacts.

Lemma process_articles_ids_tally :
  never_repeats svc_tally
  /\ exists rows s',
      process_articles 5 config_no_overlap svc_tally three_articles "s1"
                       initial_state = Some (Ok rows, s')
      /\ NoDup (map row_chunk_id rows).
Proof.
  split; [exact ScenarioFacts.tally_never_repeats|].
  destruct (process_articles 5 config_no_overlap svc_tally three_articles
                             "s1" initial_state)
    as [[[rows | e] s'] |] eqn:Hrun.
  - exists rows, s'. split; [reflexivity|].
    exact (proj1 (process_articles_ids _ _ _ _ _ _ _ _
                    ScenarioFacts.tally_never_repeats Hrun)).
  - vm_compute in Hrun. discriminate.
  - vm_compute in Hrun. discriminate.
Defined.

Lemma process_articles_only_draws_embed_fails :
  exists r s',
    process_articles 5 config_no_overlap svc_embed_fails three_articles "s1"
                     initial_state = Some (r, s')
    /\ collection s' = collection initial_state
    /\ session_history s' = session_history initial_state.
Proof.
  destruct (process_articles 5 config_no_overlap svc_embed_fails
                             three_articles "s1" initial_state)
    as [[r s'] |] eqn:Hrun.
  - exists r, s'. split; [reflexivity|].
    destruct (process_articles_only_draws _ _ _ _ _ _ _ _ Hrun)
      as (Hcoll & Hhist & _).
    split; assumption.
  - vm_compute in Hrun. discriminate.
Defined.

Lemma process_articles_all_skipped_no_pages :
  Forall (skipped svc_no_pages) three_articles
  /\ process_articles 0 config_py svc_no_pages three_articles "s1"
                      initial_state = Some (Ok [], initial_state).
Proof.
  assert (Hall : Forall (skipped svc_no_pages) three_articles)
    by (repeat apply List.Forall_cons; try apply List.Forall_nil;
        reflexivity).
  split; [exact Hall|].
  exact (process_articles_all_skipped 0 config_py svc_no_pages three_articles
           "s1" initial_state Hall).
Defined.

Lemma store_stops_at_first_failure_def :
  exists s1,
    store_in_vector_db svc_add_fails [row_abc] initial_state
    = Some (Ok tt, s1)
    /\ collection_add svc_add_fails (collection s1) (entry_of_row row_def)
       = Raise (Exception "invalid entry")
    /\ store_in_vector_db svc_add_fails [row_abc; row_def] initial_state
       = Some (Raise (Exception "invalid entry"), s1)
    /\ map entry_document (collection s1) = ["earlier text"; "abc"]%string.
Proof.
  eexists. split; [reflexivity|]. split; [reflexivity|].
  split; [| reflexivity].
  exact (store_stops_at_first_failure svc_add_fails [row_abc] row_def []
           initial_state _ (Exception "invalid entry") eq_refl eq_refl).
Defined.

Lemma store_appends_rows_abc_def :
  append_only svc_all_ok
  /\ exists s',
      store_in_vector_db svc_all_ok [row_abc; row_def] initial_state
      = Some (Ok tt, s')
      /\ collection s'
         = collection initial_state ++ map entry_of_row [row_abc; row_def].
Proof.
  split; [exact ScenarioFacts.svc_all_ok_append_only|].
  destruct (store_appends_rows svc_all_ok [row_abc; row_def] initial_state
              ScenarioFacts.svc_all_ok_append_only)
    as (s' & Hrun & Hcoll & _).
  exists s'. split; assumption.
Defined.

Lemma ingest_then_store_three_articles :
  Forall (ingested 5 config_no_overlap svc_all_ok) three_articles
  /\ append_only svc_all_ok
  /\ exists rows s1 s2 added,
      process_articles 5 config_no_overlap svc_all_ok three_articles "s1"
                       initial_state = Some (Ok rows, s1)
      /\ store_in_vector_db svc_all_ok rows s1 = Some (Ok tt, s2)
      /\ collection s2 = collection initial_state ++ added
      /\ map entry_document added = ["abc"; "def"; "xyz"]%string.
Proof.
  assert (Hall : Forall (ingested 5 config_no_overlap svc_all_ok)
                        three_articles).
  { unfold three_articles. simpl.
    apply List.Forall_cons.
    { right. exists ["abc"; "def"]%string. split; [reflexivity|].
      repeat apply List.Forall_cons; try apply List.Forall_nil;
        eexists; reflexivity. }
    apply List.Forall_cons; [left; reflexivity|].
    apply List.Forall_cons; [| apply List.Forall_nil].
    right. exists ["xyz"]%string. split; [reflexivity|].
    repeat apply List.Forall_cons; try apply List.Forall_nil;
      eexists; reflexivity. }
  split; [exact Hall|].
  split; [exact ScenarioFacts.svc_all_ok_append_only|].
  destruct (ingest_then_store 5 config_no_overlap svc_all_ok three_articles
              "s1" initial_state Hall ScenarioFacts.svc_all_ok_append_only)
    as (rows & s1 & s2 & added & Hrun & Hstore & Hcoll & Hdocs & _).
  exists rows, s1, s2, added. repeat split; assumption.
Defined.

Lemma fetch_industry_news_tags_three_hits :
  exists articles,
    fetch_industry_news svc_all_ok (JStr "automotive")
      (JDict [("A"%string, JList [JStr "ev"])]) = Ok articles
    /\ Forall (fun a => In (art_focus_point a, art_keywords a)
                           [("A"%string, JList [JStr "ev"])])
              articles.
Proof.
  destruct (fetch_industry_news svc_all_ok (JStr "automotive")
              (JDict [("A"%string, JList [JStr "ev"])]))
    as [articles | e] eqn:Hrun.
  - exists articles. split; [reflexivity|].
    destruct (fetch_industry_news_tags _ _ _ _ Hrun) as (items & Hitems & Hall).
    inversion Hitems; subst items. exact Hall.
  - vm_compute in Hrun. discriminate.
Defined.

Lemma fetch_industry_news_search_failure_down :
  Exists (search_fails svc_search_down (JStr "automotive"))
         [("A"%string, JList [JStr "ev"]); ("B"%string, JList [])]
  /\ exists e,
      fetch_industry_news svc_search_down (JStr "automotive")
        (JDict [("A"%string, JList [JStr "ev"]); ("B"%string, JList [])])
      = Raise e.
Proof.
  assert (Hex : Exists (search_fails svc_search_down (JStr "automotive"))
                       [("A"%string, JList [JStr "ev"]);
                        ("B"%string, JList [])]).
  { apply Exists_cons_tl, Exists_cons_hd. eexists. reflexivity. }
  split; [exact Hex|].
  exact (fetch_industry_news_search_failure svc_search_down
           (JStr "automotive") _ Hex).
Defined.

Lemma retrieve_zips_answer_earlier :
  exists results,
    retrieve_from_vector_db svc_all_ok [earlier_entry] "Tesla A last_month" 5
    = Ok results
    /\ length results = 1%nat.
Proof.
  destruct (retrieve_from_vector_db svc_all_ok [earlier_entry]
              "Tesla A last_month" 5) as [results | e] eqn:Hrun.
  - exists results. split; [reflexivity|].
    destruct (retrieve_zips_answer _ _ _ _ _ Hrun)
      as (v & answer & docs & metas & dists & _ & Hanswer & Hdocs & Hmetas
          & Hdists & Hlen & _).
    vm_compute in Hanswer. inversion Hanswer; subst answer.
    vm_compute in Hdocs, Hmetas, Hdists.
    inversion Hdocs; inversion Hmetas; inversion Hdists; subst.
    exact Hlen.
  - vm_compute in Hrun. discriminate.
Defined.

Lemma compose_records_session_run :
  exists r s' timestamp,
    compose_industry_news 5 config_py svc_no_pages "Tesla" ["A"; "B"]%string
      (Some "s1"%string) 5 "last_month" initial_state
    = Some (Composed r, s')
    /\ get_session_history "s1" s'
       = Some {| sr_timestamp := timestamp; sr_company := "Tesla";
                 sr_industry := cr_industry r;
                 sr_focus_points := ["A"; "B"]%string |}.
Proof.
  destruct (compose_industry_news 5 config_py svc_no_pages "Tesla"
              ["A"; "B"]%string (Some "s1"%string) 5 "last_month"
              initial_state)
    as [[[r | error sid timestamp] s'] |] eqn:Hcompose.
  - destruct (compose_records_session _ _ _ _ _ _ _ _ _ _ _ Hcompose)
      as [timestamp Hget].
    exists r, s', timestamp. split; [reflexivity|].
    assert (Hsid : cr_session_id r = "s1"%string).
    { vm_compute in Hcompose. inversion Hcompose. reflexivity. }
    now rewrite Hsid in Hget.
  - vm_compute in Hcompose. discriminate.
  - vm_compute in Hcompose. discriminate.
Defined.

Lemma compose_keeps_other_sessions_run :
  exists response s',
    compose_industry_news 5 config_py svc_no_pages "Tesla" ["A"; "B"]%string
      (Some "s1"%string) 5 "last_month" initial_state
    = Some (response, s')
    /\ response_session_id response = "s1"%string
    /\ get_session_history "s0" s' = get_session_history "s0" initial_state.
Proof.
  destruct (compose_industry_news 5 config_py svc_no_pages "Tesla"
              ["A"; "B"]%string (Some "s1"%string) 5 "last_month"
              initial_state)
    as [[response s'] |] eqn:Hcompose.
  - assert (Hsid : response_session_id response = "s1"%string).
    { vm_compute in Hcompose. inversion Hcompose. reflexivity. }
    exists response, s'. split; [reflexivity|]. split; [exact Hsid|].
    apply (compose_keeps_other_sessions _ _ _ _ _ _ _ _ _ _ _ "s0" Hcompose).
    rewrite Hsid. discriminate.
  - vm_compute in Hcompose. discriminate.
Defined.

Lemma compose_session_id_run :
  exists response s',
    compose_industry_news 5 config_py svc_search_down "Tesla"
      ["A"; "B"]%string None 5 "last_month" initial_state
    = Some (response, s')
    /\ response_session_id response = "session_0"%string.
Proof.
  destruct (compose_industry_news 5 config_py svc_search_down "Tesla"
              ["A"; "B"]%string None 5 "last_month" initial_state)
    as [[response s'] |] eqn:Hcompose.
  - exists response, s'. split; [reflexivity|].
    exact (proj1 (compose_session_id _ _ _ _ _ _ _ _ _ _ _ Hcompose)).
  - vm_compute in Hcompose. discriminate.
Defined.

Lemma compose_previews_run :
  exists r s',
    compose_industry_news 5 config_py svc_no_pages "Tesla" ["A"; "B"]%string
      (Some "s1"%string) 5 "last_month" initial_state
    = Some (Composed r, s')
    /\ Forall2 (previewed_block svc_no_pages (collection s') "Tesla"
                                "last_month" 5)
               ["A"; "B"]%string (cr_news_summary r)
    /\ map (fun block => map as_text_snippet (fps_articles block))
           (cr_news_summary r)
       = [["earlier text..."]; ["earlier text..."]]%string.
Proof.
  destruct (compose_industry_news 5 config_py svc_no_pages "Tesla"
              ["A"; "B"]%string (Some "s1"%string) 5 "last_month"
              initial_state)
    as [[[r | error sid timestamp] s'] |] eqn:Hcompose.
  - exists r, s'. split; [reflexivity|]. split.
    + exact (compose_previews _ _ _ _ _ _ _ _ _ _ _ Hcompose).
    + vm_compute in Hcompose. inversion Hcompose. reflexivity.
  - vm_compute in Hcompose. discriminate.
  - vm_compute in Hcompose. discriminate.
Defined.

Lemma compose_wrong_shape_list :
  run_async svc_list_completion "Tesla" ["A"]%string = Ok (Some "[]"%string)
  /\ PyStr.is_blank "[]" = false
  /\ json_loads svc_list_completion "[]" = Ok (JList [])
  /\ getitem (JList []) "industry"
     = Raise (Exception "list indices must be integers or slices, not str")
  /\ exists sid timestamp s',
      compose_industry_news 5 config_py svc_list_completion "Tesla"
        ["A"]%string (Some "s1"%string) 5 "last_month" initial_state
      = Some (ErrorResponse "list indices must be integers or slices, not str"
                            sid timestamp, s')
      /\ collection s' = collection initial_state
      /\ session_history s' = session_history initial_state.
Proof.
  repeat (split; [reflexivity|]).
  exact (compose_wrong_shape 5 config_py svc_list_completion "Tesla"
           ["A"]%string (Some "s1"%string) 5 "last_month" initial_state
           "[]" (JList [])
           (Exception "list indices must be integers or slices, not str")
           eq_refl eq_refl eq_refl eq_refl).
Defined.

Lemma compose_returns_without_overlap_run :
  0 < CHUNK_SIZE config_no_overlap /\ CHUNK_OVERLAP config_no_overlap <= 0
  /\ exists fuel0 : nat,
      forall fuel, (fuel0 <= fuel)%nat ->
        exists response s',
          compose_industry_news fuel config_no_overlap svc_all_ok "Tesla"
            ["A"; "B"]%string (Some "s1"%string) 5 "last_month"
            initial_state
          = Some (response, s').
Proof.
  assert (Hsize : 0 < CHUNK_SIZE config_no_overlap) by (simpl; lia).
  assert (Hov : CHUNK_OVERLAP config_no_overlap <= 0) by (simpl; lia).
  split; [exact Hsize|]. split; [exact Hov|].
  exact (compose_returns_without_overlap config_no_overlap svc_all_ok "Tesla"
           ["A"; "B"]%string (Some "s1"%string) 5 "last_month"
           initial_state Hsize Hov).
Defined.

(* ===================================================================== *)
(** ** An embedding call that fails *)
(* ===================================================================== *)

Module FailureFacts.

Import NewsAgentPlugin ControlAgent TextProcessing Properties Shapes
       MonadFacts IngestionFacts.





End FailureFacts.


